(** * waltz/resources.py: resource identifiers, variants, course backups

    A shallow embedding of [src/waltz/resources.py].  Python values are an
    inductive type, dictionaries are insertion-ordered association lists,
    exceptions are an inductive type carried by an error monad, the disk is
    a finite map from paths to file contents together with a log of the
    writes performed, and the collaborators the module imports (the Canvas
    HTTP client, glob, gzip, the YAML/JSON printers, the Markdown
    converters, the date helpers) are variables of the sections that use
    them.  A Python string is represented by its UTF-8 encoding, taken to
    be well formed.  The texts of the errors raised by the interpreter
    itself are those printed by CPython 3.12. *)

From stdpp Require Import gmap strings list fin_maps.
From Stdlib Require Import ZArith Ascii String Lia.

Local Open Scope string_scope.
Set Warnings "-register-all".

(** ** Python values *)

(** [Course.__init__] also stores [self.env], the template environment;
    no modelled function reads it back, so the record keeps the four
    strings. *)
Record Course := mkCourse {
  root_directory : string;
  backups : string;
  templates : string;
  course_name : string
}.

(** Class-level attributes of a [Resource] subclass: what the registry maps
    a category name to. *)
Record ResourceType := mkResourceType {
  class_name : string;
  category_names : list string;
  canvas_name : string;
  canonical_category : string;
  canvas_title_field : string;
  canvas_id_field : string;
  extension : string
}.

Inductive PyVal : Type :=
| PNone
| PBool (b : bool)
| PInt (z : Z)
| PStr (s : string)
| PList (l : list PyVal)
| PDict (kvs : list (string * PyVal))
| PCourse (c : Course)
| PObject (cls : string) (attrs : list (string * PyVal)).

(** ** Exceptions *)

Inductive PyExn : Type :=
| WaltzException (msg : string)
| WaltzNoResourceFound (msg : string)
| ValueError (msg : string)
| NameError (msg : string)
| KeyError (key : string)
| IndexError (msg : string)
| TypeError (msg : string)
| AttributeError (msg : string)
| FileNotFoundError (path : string)
| Unmodelled (what : string).

(** [Unmodelled] is not an exception of the program: it marks a run that
    leaves the values represented here (a mapping key that is not a
    string, a method or [keys] found on an instance), so that nothing is
    said about it. *)
Definition result (A : Type) : Type := PyExn + A.

Definition ret {A} (a : A) : result A := inr a.
Definition raise {A} (e : PyExn) : result A := inl e.
Definition bind {A B} (m : result A) (k : A -> result B) : result B :=
  match m with
  | inl e => inl e
  | inr a => k a
  end.

Declare Scope py_scope.
Delimit Scope py_scope with py.
Notation "x <- m ;; k" := (bind m (fun x => k))
  (at level 100, m at next level, right associativity) : py_scope.
Notation "m ;;; k" := (bind m (fun _ => k))
  (at level 100, right associativity) : py_scope.
Local Open Scope py_scope.

(** ** Dictionaries: insertion-ordered association lists *)

Section Dict.
Context {V : Type}.

Fixpoint dict_get (d : list (string * V)) (k : string) : option V :=
  match d with
  | [] => None
  | (k', v) :: d' => if String.eqb k k' then Some v else dict_get d' k
  end.

Definition dict_mem (k : string) (d : list (string * V)) : bool :=
  match dict_get d k with Some _ => true | None => false end.

(** [d[k] = v]: an existing key keeps its position, a new key goes last. *)
Fixpoint dict_set (d : list (string * V)) (k : string) (v : V)
  : list (string * V) :=
  match d with
  | [] => [(k, v)]
  | (k', v') :: d' =>
      if String.eqb k k' then (k, v) :: d' else (k', v') :: dict_set d' k v
  end.

Fixpoint dict_remove (d : list (string * V)) (k : string)
  : list (string * V) :=
  match d with
  | [] => []
  | (k', v') :: d' =>
      if String.eqb k k' then d' else (k', v') :: dict_remove d' k
  end.

(** [d[k]] *)
Definition dict_getitem (d : list (string * V)) (k : string) : result V :=
  match dict_get d k with
  | Some v => ret v
  | None => raise (KeyError k)
  end.

(** [del d[k]] *)
Definition dict_del (d : list (string * V)) (k : string)
  : result (list (string * V)) :=
  match dict_get d k with
  | Some _ => ret (dict_remove d k)
  | None => raise (KeyError k)
  end.

(** [d.pop(k)] *)
Definition dict_pop (d : list (string * V)) (k : string)
  : result (V * list (string * V)) :=
  match dict_get d k with
  | Some v => ret (v, dict_remove d k)
  | None => raise (KeyError k)
  end.

(** [d.update(other)] *)
Definition dict_update (d other : list (string * V)) : list (string * V) :=
  fold_left (fun acc kv => dict_set acc (fst kv) (snd kv)) other d.

(** [d.get(k, default)] *)
Definition dict_get_default (d : list (string * V)) (k : string) (dflt : V)
  : V :=
  match dict_get d k with Some v => v | None => dflt end.

Definition dict_keys (d : list (string * V)) : list string := map fst d.
End Dict.

(** ** Strings *)

(** [sep.join(parts)] *)
Fixpoint str_join (sep : string) (parts : list string) : string :=
  match parts with
  | [] => ""
  | [p] => p
  | p :: rest => p +:+ sep +:+ str_join sep rest
  end.

(** [s.split("/", 1)]: at most one split, at the first slash. *)
Fixpoint split_slash_once (s : string) : list string :=
  match s with
  | EmptyString => [""]
  | String c s' =>
      if Ascii.eqb c "/"%char then [""; s']
      else match split_slash_once s' with
           | h :: t => String c h :: t
           | [] => [String c ""]
           end
  end.

(** [str.lower] of a string of ASCII characters: the letters A to Z are
    lowered. *)
Definition ascii_lower (c : ascii) : ascii :=
  let n := nat_of_ascii c in
  if (65 <=? n)%nat && (n <=? 90)%nat then ascii_of_nat (n + 32) else c.

Fixpoint str_lower (s : string) : string :=
  match s with
  | EmptyString => EmptyString
  | String c s' => String (ascii_lower c) (str_lower s')
  end.

Fixpoint is_ascii (s : string) : bool :=
  match s with
  | EmptyString => true
  | String c s' => (nat_of_ascii c <? 128)%nat && is_ascii s'
  end.

(** [s.lower()].  For a string that has characters outside ASCII the
    result depends on the Unicode tables of the interpreter: it is what
    [lower_unicode] returns, about which nothing is assumed. *)
Definition py_lower (lower_unicode : string -> string) (s : string) : string :=
  if is_ascii s then str_lower s else lower_unicode s.

(** Characters.  The character that starts with the byte [c] takes
    [utf8_width c] bytes. *)
Definition utf8_width (c : ascii) : nat :=
  let n := nat_of_ascii c in
  if (n <? 192)%nat then 1
  else if (n <? 224)%nat then 2
  else if (n <? 240)%nat then 3
  else 4.

Fixpoint str_take (n : nat) (s : string) : string :=
  match n, s with
  | S n', String c s' => String c (str_take n' s')
  | _, _ => EmptyString
  end.

Fixpoint str_drop (n : nat) (s : string) : string :=
  match n, s with
  | S n', String _ s' => str_drop n' s'
  | _, _ => s
  end.

(** [s[0]] and [s[1:]] of a string that is not empty. *)
Definition str_head (s : string) : string :=
  match s with
  | EmptyString => EmptyString
  | String c s' => String c (str_take (utf8_width c - 1) s')
  end.

Definition str_tail (s : string) : string :=
  match s with
  | EmptyString => EmptyString
  | String c s' => str_drop (utf8_width c - 1) s'
  end.

(** The characters of [s]; [fuel] bounds their number. *)
Fixpoint chars_upto (fuel : nat) (s : string) : list string :=
  match fuel, s with
  | S fuel', String _ _ => str_head s :: chars_upto fuel' (str_tail s)
  | _, _ => []
  end.

Definition utf8_chars (s : string) : list string :=
  chars_upto (String.length s) s.

(** A number in decimal. *)
Definition digit (n : nat) : string := String (ascii_of_nat (48 + n)) "".

Fixpoint decimal_upto (fuel n : nat) : string :=
  match fuel with
  | 0 => ""
  | S fuel' =>
      if (n <? 10)%nat then digit n
      else decimal_upto fuel' (n / 10) +:+ digit (n mod 10)
  end.

Definition nat_to_string (n : nat) : string := decimal_upto (S n) n.

(** [s.startswith(p)] *)
Definition startswith (s p : string) : bool := String.prefix p s.

Fixpoint str_contains (needle hay : string) : bool :=
  String.prefix needle hay ||
  match hay with
  | EmptyString => false
  | String _ hay' => str_contains needle hay'
  end.

(** [os.path.join(a, b)] on POSIX. *)
Definition ends_with_slash (s : string) : bool :=
  match String.get (String.length s - 1) s with
  | Some c => Ascii.eqb c "/"%char
  | None => false
  end.

Definition path_join (a b : string) : string :=
  if String.prefix "/" b then b
  else if String.eqb a "" || ends_with_slash a then a +:+ b
  else a +:+ "/" +:+ b.

Definition path_join_all (parts : list string) : string :=
  match parts with
  | [] => ""
  | p :: rest => fold_left path_join rest p
  end.

(** [os.path.dirname(p)] on POSIX: everything before the last slash, with
    the trailing slashes of that head removed unless it is all slashes. *)
Fixpoint head_upto_last_slash (s : string) : option string :=
  match s with
  | EmptyString => None
  | String c s' =>
      match head_upto_last_slash s' with
      | Some h => Some (String c h)
      | None => if Ascii.eqb c "/"%char then Some (String c "") else None
      end
  end.

Fixpoint all_slashes (s : string) : bool :=
  match s with
  | EmptyString => true
  | String c s' => Ascii.eqb c "/"%char && all_slashes s'
  end.

Fixpoint rstrip_slashes (s : string) : string :=
  match s with
  | EmptyString => EmptyString
  | String c s' => if all_slashes s then EmptyString else String c (rstrip_slashes s')
  end.

Definition path_dirname (p : string) : string :=
  match head_upto_last_slash p with
  | None => ""
  | Some h => if all_slashes h then h else rstrip_slashes h
  end.

(** Reading a file opened in text mode translates the line endings
    [\r\n] and [\r] to [\n] (universal newlines). *)
Definition CR : ascii := ascii_of_nat 13.
Definition LF : ascii := ascii_of_nat 10.
(** The string ["\n"]. *)
Definition nl : string := String LF "".

Fixpoint universal_newlines (s : string) : string :=
  match s with
  | EmptyString => EmptyString
  | String c s' =>
      if Ascii.eqb c CR then
        match s' with
        | String c' s'' =>
            if Ascii.eqb c' LF then String LF (universal_newlines s'')
            else String LF (universal_newlines s')
        | EmptyString => String LF EmptyString
        end
      else String c (universal_newlines s')
  end.

(** ** Operations on Python values *)

(** Truth value, as tested by [if not x]. *)
Definition truthy (v : PyVal) : bool :=
  match v with
  | PNone => false
  | PBool b => b
  | PInt z => negb (Z.eqb z 0)
  | PStr s => negb (String.eqb s "")
  | PList l => match l with [] => false | _ => true end
  | PDict kvs => match kvs with [] => false | _ => true end
  | PCourse _ => true
  | PObject _ _ => true
  end.

Definition is_str (s : string) (v : PyVal) : bool :=
  match v with PStr t => String.eqb s t | _ => false end.

(** [type(v).__name__] *)
Definition type_name (v : PyVal) : string :=
  match v with
  | PNone => "NoneType"
  | PBool _ => "bool"
  | PInt _ => "int"
  | PStr _ => "str"
  | PList _ => "list"
  | PDict _ => "dict"
  | PCourse _ => "Course"
  | PObject cls _ => cls
  end.

(** [key in v] for a string [key]. *)
Definition py_contains (key : string) (v : PyVal) : result bool :=
  match v with
  | PList l => ret (existsb (is_str key) l)
  | PDict kvs => ret (dict_mem key kvs)
  | PStr s => ret (str_contains key s)
  | _ =>
      raise (TypeError
               ("argument of type '" +:+ type_name v +:+ "' is not iterable"))
  end.

(** [len(v)]; the length of a string is its number of characters. *)
Definition py_len (v : PyVal) : result nat :=
  match v with
  | PList l => ret (List.length l)
  | PDict kvs => ret (List.length kvs)
  | PStr s => ret (List.length (utf8_chars s))
  | _ =>
      raise (TypeError ("object of type '" +:+ type_name v +:+ "' has no len()"))
  end.

(** [v[0]]; the keys of a modelled dict are strings, so the integer key 0
    is never one of them, and the [KeyError] names it by its digits. *)
Definition py_first (v : PyVal) : result PyVal :=
  match v with
  | PList (x :: _) => ret x
  | PList [] => raise (IndexError "list index out of range")
  | PStr (String c s) => ret (PStr (str_head (String c s)))
  | PStr EmptyString => raise (IndexError "string index out of range")
  | PDict _ => raise (KeyError "0")
  | _ =>
      raise (TypeError ("'" +:+ type_name v +:+ "' object is not subscriptable"))
  end.

(** [v[field]] for a string [field]. *)
Definition py_getitem (v : PyVal) (field : string) : result PyVal :=
  match v with
  | PDict kvs => dict_getitem kvs field
  | PList _ => raise (TypeError "list indices must be integers or slices, not str")
  | PStr _ => raise (TypeError "string indices must be integers, not 'str'")
  | _ =>
      raise (TypeError ("'" +:+ type_name v +:+ "' object is not subscriptable"))
  end.

(** [v[field] = x] for a string [field]. *)
Definition py_setitem (v : PyVal) (field : string) (x : PyVal)
    : result PyVal :=
  match v with
  | PDict kvs => ret (PDict (dict_set kvs field x))
  | PList _ => raise (TypeError "list indices must be integers or slices, not str")
  | _ =>
      raise (TypeError
               ("'" +:+ type_name v
                +:+ "' object does not support item assignment"))
  end.

(** The items a [for] loop or a comprehension draws from [v]. *)
Definition str_chars (s : string) : list PyVal := map PStr (utf8_chars s).

Definition py_iter (v : PyVal) : result (list PyVal) :=
  match v with
  | PList l => ret l
  | PDict kvs => ret (map (fun kv => PStr (fst kv)) kvs)
  | PStr s => ret (str_chars s)
  | _ => raise (TypeError ("'" +:+ type_name v +:+ "' object is not iterable"))
  end.

Fixpoint mapM {A B} (f : A -> result B) (l : list A) : result (list B) :=
  match l with
  | [] => ret []
  | x :: l' => y <- f x ;; ys <- mapM f l' ;; ret (y :: ys)
  end.

(** The item of index [i] of a sequence given to [join]. *)
Definition as_str (i : nat) (v : PyVal) : result string :=
  match v with
  | PStr s => ret s
  | _ =>
      raise (TypeError
               ("sequence item " +:+ nat_to_string i
                +:+ ": expected str instance, " +:+ type_name v +:+ " found"))
  end.

Fixpoint strs_from (i : nat) (items : list PyVal) : result (list string) :=
  match items with
  | [] => ret []
  | x :: rest => s <- as_str i x ;; ss <- strs_from (S i) rest ;; ret (s :: ss)
  end.

(** [sep.join(items)] *)
Definition py_join (sep : string) (items : list PyVal) : result string :=
  parts <- strs_from 0 items ;; ret (str_join sep parts).

(** A name that is either a string or [None]. *)
Definition name_val (n : option string) : PyVal :=
  match n with Some s => PStr s | None => PNone end.

(** ["{}".format(n)] for such a name. *)
Definition name_str (n : option string) : string :=
  match n with Some s => s | None => "None" end.

(** ** Resource variants *)

(** The base class [Resource] declares only the two remote field names. *)
Definition Resource_canvas_title_field : string := "title".
Definition Resource_canvas_id_field : string := "id".

Definition Page : ResourceType := {|
  class_name := "Page";
  category_names := ["page"; "pages"];
  canvas_name := "pages";
  canonical_category := "pages";
  canvas_title_field := "title";
  canvas_id_field := "url";
  extension := ".md"
|}.

Definition Outcome : ResourceType := {|
  class_name := "Outcome";
  category_names := ["outcome"; "outcomes"];
  canvas_name := "outcomes";
  canonical_category := "outcomes";
  canvas_title_field := "title";
  canvas_id_field := "id";
  extension := ".yaml"
|}.

Definition Assignment : ResourceType := {|
  class_name := "Assignment";
  category_names := ["assignments"; "assignment"; "a"];
  canvas_name := "assignments";
  canonical_category := "assignments";
  canvas_title_field := "name";
  canvas_id_field := "id";
  extension := ".yaml"
|}.

(** ** The registry and the identifier *)

(** After parsing, an identifier has its first six fields; the remote and
    disk fields are assigned later by [__init__], and [None] there stands
    for an attribute not assigned yet.  [name = None] is Python's [None]. *)
Record ResourceID := mkResourceID {
  course : Course;
  raw : string;
  category : string;
  command : string;
  name : option string;
  resource_type : ResourceType;
  canvas_data : option PyVal;
  canvas_title : option PyVal;
  canvas_id : option PyVal;
  filename : option string;
  is_new : option bool;
  path : option string
}.

Definition set_canvas_data (v : PyVal) (r : ResourceID) : ResourceID :=
  mkResourceID (course r) (raw r) (category r) (command r) (name r)
    (resource_type r) (Some v) (canvas_title r) (canvas_id r)
    (filename r) (is_new r) (path r).

Definition set_canvas_title (v : PyVal) (r : ResourceID) : ResourceID :=
  mkResourceID (course r) (raw r) (category r) (command r) (name r)
    (resource_type r) (canvas_data r) (Some v) (canvas_id r)
    (filename r) (is_new r) (path r).

Definition set_canvas_id (v : PyVal) (r : ResourceID) : ResourceID :=
  mkResourceID (course r) (raw r) (category r) (command r) (name r)
    (resource_type r) (canvas_data r) (canvas_title r) (Some v)
    (filename r) (is_new r) (path r).

Definition set_filename (f : string) (r : ResourceID) : ResourceID :=
  mkResourceID (course r) (raw r) (category r) (command r) (name r)
    (resource_type r) (canvas_data r) (canvas_title r) (canvas_id r)
    (Some f) (is_new r) (path r).

Definition set_disk (n : bool) (p : string) (r : ResourceID) : ResourceID :=
  mkResourceID (course r) (raw r) (category r) (command r) (name r)
    (resource_type r) (canvas_data r) (canvas_title r) (canvas_id r)
    (filename r) (Some n) (Some p).

(** Reading an attribute that [__init__] has not assigned yet. *)
Definition attr {A} (field : string) (o : option A) : result A :=
  match o with
  | Some a => ret a
  | None =>
      raise (AttributeError
               ("'ResourceID' object has no attribute '" +:+ field +:+ "'"))
  end.

Section Resolver.
(** [waltz.canvas_tools.get(endpoint, params/data, course, all)]: the
    answer of the remote API. *)
Variable get : string -> list (string * PyVal) -> string -> bool -> PyVal.
(** The built-in [repr]. *)
Variable repr : PyVal -> string.
(** [waltz.utilities.indent4] and [make_safe_filename]. *)
Variable indent4 : string -> string.
Variable make_safe_filename : PyVal -> result string.
(** [glob(pattern, recursive=True)] on the disk as it is at the call. *)
Variable glob : string -> list string.
(** [Quiz] comes from [waltz.quizzes] through [import *]; only its
    class-level attributes are used here, and it is taken to inherit the
    class methods of [Resource] below. *)
Variable Quiz : ResourceType.
(** [str.lower] on strings that have characters outside ASCII. *)
Variable lower_unicode : string -> string.

Definition ALL_RESOURCES : list ResourceType := [Quiz; Page; Assignment].

Definition RESOURCE_CATEGORIES : list (string * ResourceType) :=
  fold_left
    (fun reg ResourceType_ =>
       fold_left (fun reg category_ => dict_set reg category_ ResourceType_)
         (category_names ResourceType_) reg)
    ALL_RESOURCES [].

(** *** Class methods of [Resource] *)

Definition find_resource_on_canvas (cls : ResourceType) (course_ : Course)
    (resource_name : PyVal) : result PyVal :=
  let results :=
    get (canvas_name cls) [("search_term", resource_name)]
      (course_name course_) true in
  has_errors <- py_contains "errors" results ;;
  if has_errors
  then raise (WaltzException ("Errors in Canvas data: " +:+ repr results))
  else ret results.

Definition get_resource_on_canvas (cls : ResourceType) (course_ : Course)
    (resource_name : string) : result PyVal :=
  let data :=
    get (canvas_name cls +:+ "/" +:+ resource_name) []
      (course_name course_) false in
  has_errors <- py_contains "errors" data ;;
  if has_errors
  then raise (WaltzNoResourceFound ("Errors in Canvas data: " +:+ repr data))
  else ret data.

(** In the last branch the source formats [self.canonical_category]
    inside a class method, whose receiver is [cls]: the name [self] is
    not bound there (nor at module level in the source), so evaluating
    the argument of [ValueError] raises [NameError] before the
    [ValueError] is built. *)
Definition find_resource_on_disk (cls : ResourceType) (root filename_ : string)
    : result (bool * string) :=
  let search_path :=
    path_join_all [root; canonical_category cls; "**"; filename_] in
  let potentials := glob search_path in
  match potentials with
  | [] => ret (true, path_join_all [root; canonical_category cls; filename_])
  | [p] => ret (false, p)
  | _ => raise (NameError "name 'self' is not defined")
  end.

Definition identify_filename (cls : ResourceType) (filename_ : string)
    : string :=
  path_join (canonical_category cls) filename_.

(** [identify_title], [identify_id] and [get_names_from_json] read one
    class attribute each; they are written over the field name so that
    they can also be called on the base class. *)
Definition identify_field (field : string) (json_data : PyVal)
    : result PyVal :=
  py_getitem json_data field.

Definition names_from_json (title_field : string) (json_data : PyVal)
    : result (list PyVal) :=
  items <- py_iter json_data ;;
  mapM (identify_field title_field) items.

Definition identify_title (cls : ResourceType) : PyVal -> result PyVal :=
  identify_field (canvas_title_field cls).

Definition identify_id (cls : ResourceType) : PyVal -> result PyVal :=
  identify_field (canvas_id_field cls).

Definition get_names_from_json (cls : ResourceType)
    : PyVal -> result (list PyVal) :=
  names_from_json (canvas_title_field cls).

(** [Resource.get_names_from_json]: the receiver is the base class. *)
Definition Resource_get_names_from_json : PyVal -> result (list PyVal) :=
  names_from_json Resource_canvas_title_field.

(** *** [ResourceID]

    The [print] calls of the source write to standard output only and
    are left out. *)

Definition _parse_type (raw_ : string)
    : result (string * string * option string * ResourceType) :=
  match split_slash_once raw_ with
  | [category0; action] =>
      let category_ := py_lower lower_unicode category0 in
      match dict_get RESOURCE_CATEGORIES category_ with
      | None =>
          raise (WaltzException
                   ("Category " +:+ category_
                    +:+ " not found (full Resource ID: "
                    +:+ repr (PStr raw_) +:+ ")"))
      | Some resource_type_ =>
          if String.eqb action "*"
          then ret (category_, "*", None, resource_type_)
          else
            match action with
            | String _ _ =>
                ret (category_, str_head action, Some (str_tail action),
                     resource_type_)
            | EmptyString => raise (IndexError "string index out of range")
            end
      end
  | _ => raise (ValueError "not enough values to unpack (expected 2, got 1)")
  end.

Definition _new_canvas_resource (self : ResourceID) : result PyVal :=
  potentials <- find_resource_on_canvas (resource_type self) (course self)
                  (name_val (name self)) ;;
  if negb (truthy potentials) then ret (PBool true)
  else
    names <- Resource_get_names_from_json potentials ;;
    listing <- py_join nl names ;;
    raise (WaltzException
             ("Resource " +:+ name_str (name self) +:+ " already exists:"
              +:+ nl +:+ indent4 listing)).

Definition _find_canvas_resource (self : ResourceID) : result PyVal :=
  potentials <- find_resource_on_canvas (resource_type self) (course self)
                  (name_val (name self)) ;;
  if negb (truthy potentials) then
    raise (WaltzNoResourceFound
             ("No " +:+ canvas_name (resource_type self)
              +:+ " resource found for: " +:+ raw self))
  else
    n <- py_len potentials ;;
    if (1 <? n)%nat then
      names <- get_names_from_json (resource_type self) potentials ;;
      listing <- py_join nl names ;;
      raise (WaltzNoResourceFound
               ("Ambiguous " +:+ canvas_name (resource_type self)
                +:+ " resource ID: " +:+ raw self +:+ nl +:+ "Matches:"
                +:+ nl +:+ indent4 listing))
    else py_first potentials.

Definition _get_canvas_resource (self : ResourceID) : result PyVal :=
  get_resource_on_canvas (resource_type self) (course self)
    (name_str (name self)).

(** The methods that assign attributes return the identifier as the
    assignments left it, also when they raise. *)
Definition _parse_canvas_data (self : ResourceID)
    : ResourceID * result unit :=
  match attr "canvas_data" (canvas_data self) with
  | inl e => (self, inl e)
  | inr (PBool true) =>
      (set_canvas_id PNone (set_canvas_title (name_val (name self)) self),
       ret tt)
  | inr data =>
      match identify_title (resource_type self) data with
      | inl e => (self, inl e)
      | inr title =>
          let self1 := set_canvas_title title self in
          match identify_id (resource_type self) data with
          | inl e => (self1, inl e)
          | inr id => (set_canvas_id id self1, ret tt)
          end
      end
  end.

Definition _get_canvas_data (self : ResourceID) : ResourceID * result unit :=
  let fetched :=
    if startswith (command self) "+" then _new_canvas_resource self
    else if startswith (command self) "?" then _find_canvas_resource self
    else if startswith (command self) ":" then _get_canvas_resource self
    else raise (WaltzException
                  ("Unknown command: " +:+ repr (PStr (command self)))) in
  match fetched with
  | inl e => (self, inl e)
  | inr data => _parse_canvas_data (set_canvas_data data self)
  end.

Definition _get_disk_path (self : ResourceID) : ResourceID * result unit :=
  match
    (title <- attr "canvas_title" (canvas_title self) ;;
     safe <- make_safe_filename title ;;
     ret (safe +:+ extension (resource_type self)))
  with
  | inl e => (self, inl e)
  | inr filename_ =>
      let self1 := set_filename filename_ self in
      match
        find_resource_on_disk (resource_type self)
          (root_directory (course self)) filename_
      with
      | inl e => (self1, inl e)
      | inr (is_new_, path_) => (set_disk is_new_ path_ self1, ret tt)
      end
  end.

(** [ResourceID(course, raw)]: the object exists only if no step raised. *)
Definition ResourceID_init (course_ : Course) (raw_ : string)
    : result ResourceID :=
  parsed <- _parse_type raw_ ;;
  let '(category_, command_, name_, resource_type_) := parsed in
  let self :=
    mkResourceID course_ raw_ category_ command_ name_ resource_type_
      None None None None None None in
  let (self1, r1) := _get_canvas_data self in
  r1 ;;;
  let (self2, r2) := _get_disk_path self1 in
  r2 ;;;
  ret self2.
End Resolver.

(** ** Resource objects *)

(** An instance is [PObject cls attrs], [attrs] being its [__dict__]. *)

(** [self.a] for an attribute that no class in the module defines: the
    instance dictionary decides.  Every attribute read through [getattr]
    below ([name], [html_url], [description], the settings and the three
    timestamps) is of that kind. *)
Definition getattr (self : PyVal) (a : string) : result PyVal :=
  match self with
  | PObject cls attrs =>
      match dict_get attrs a with
      | Some v => ret v
      | None =>
          raise (AttributeError
                   ("'" +:+ cls +:+ "' object has no attribute '" +:+ a +:+ "'"))
      end
  | _ => raise (AttributeError ("object has no attribute '" +:+ a +:+ "'"))
  end.

Definition hasattr (self : PyVal) (a : string) : bool :=
  match getattr self a with inr _ => true | inl _ => false end.

(** [self.a = v] *)
Definition setattr (self : PyVal) (a : string) (v : PyVal) : result PyVal :=
  match self with
  | PObject cls attrs => ret (PObject cls (dict_set attrs a v))
  | _ => raise (AttributeError ("object has no attribute '" +:+ a +:+ "'"))
  end.

(** [setattr(self, key, value)] inside [Resource.__init__], on the
    instance dictionary [attrs].  Three names are data descriptors of
    every instance of a plain class and do not go to the dictionary:
    [__class__] accepts a class only, which no modelled value is,
    [__weakref__] cannot be written, and [__dict__] replaces the whole
    dictionary by the mapping it is given. *)
Definition object_setattr (attrs : list (string * PyVal)) (key : string)
    (value : PyVal) : result (list (string * PyVal)) :=
  if String.eqb key "__class__" then
    raise (TypeError
             ("__class__ must be set to a class, not '" +:+ type_name value
              +:+ "' object"))
  else if String.eqb key "__weakref__" then
    raise (AttributeError
             "attribute '__weakref__' of 'Resource' objects is not writable")
  else if String.eqb key "__dict__" then
    match value with
    | PDict kvs => ret kvs
    | _ =>
        raise (TypeError
                 ("__dict__ must be set to a dictionary, not a '"
                  +:+ type_name value +:+ "'"))
    end
  else ret (dict_set attrs key value).

(** The names that [setattr] stores in the instance dictionary and that
    the call of the method accepts as a keyword. *)
Definition plain_name (key : string) : bool :=
  negb (String.eqb key "self" || String.eqb key "__class__"
        || String.eqb key "__weakref__" || String.eqb key "__dict__").

(** One turn of the loop of [Resource.__init__] over [list(kwargs.items())]:
    [setattr(self, key, value)] then [del kwargs[key]]. *)
Definition init_step
    (st : result (list (string * PyVal) * list (string * PyVal)))
    (item : string * PyVal)
    : result (list (string * PyVal) * list (string * PyVal)) :=
  s <- st ;;
  attrs' <- object_setattr (fst s) (fst item) (snd item) ;;
  kwargs' <- dict_del (snd s) (fst item) ;;
  ret (attrs', kwargs').

(** [Resource.__init__(self, **kwargs)], which no variant overrides: the
    new instance of [cls].  A keyword called [self] collides with the
    receiver and is refused when the method is entered. *)
Definition Resource_init (cls : string) (kwargs : list (string * PyVal))
    : result PyVal :=
  if dict_mem "self" kwargs
  then raise (TypeError
                "Resource.__init__() got multiple values for argument 'self'")
  else
    s <- fold_left init_step kwargs (ret ([], kwargs)) ;;
    attrs <- object_setattr (fst s) "unmatched_parameters" (PDict (snd s)) ;;
    ret (PObject cls attrs).

(** The call of [cls] with the items of [data] and [course=course] as
    keywords: a key of [data] that is also given by keyword is refused at
    the call, whose error names the class with its module. *)
Definition call_with_course (cls : string) (data : list (string * PyVal))
    (course_ : Course) : result PyVal :=
  if dict_mem "course" data
  then raise (TypeError
                ("waltz.resources." +:+ cls
                 +:+ "() got multiple values for keyword argument 'course'"))
  else Resource_init cls (data ++ [("course", PCourse course_)]).

(** The value [v] unpacked as the keywords of a call of [cls].  An
    instance with an attribute [keys] is asked for its keys, which the
    values represented here do not follow. *)
Definition as_kwargs (cls : string) (v : PyVal)
    : result (list (string * PyVal)) :=
  match v with
  | PDict kvs => ret kvs
  | PObject _ attrs =>
      if dict_mem "keys" attrs
      then raise (Unmodelled "an instance with an attribute keys")
      else
        raise (TypeError
                 ("waltz.resources." +:+ cls
                  +:+ "() argument after ** must be a mapping, not "
                  +:+ type_name v))
  | _ =>
      raise (TypeError
               ("waltz.resources." +:+ cls
                +:+ "() argument after ** must be a mapping, not "
                +:+ type_name v))
  end.

(** The receiver of [v.method(...)] for a method of [dict]: no other
    modelled class has the methods [update] and [pop] both, and the
    attribute is looked up before the arguments are evaluated. *)
Definition as_dict_receiver (method : string) (v : PyVal)
    : result (list (string * PyVal)) :=
  match v with
  | PDict kvs => ret kvs
  | PObject cls attrs =>
      if dict_mem method attrs
      then raise (Unmodelled "a method found on an instance")
      else
        raise (AttributeError
                 ("'" +:+ cls +:+ "' object has no attribute '" +:+ method
                  +:+ "'"))
  | _ =>
      raise (AttributeError
               ("'" +:+ type_name v +:+ "' object has no attribute '"
                +:+ method +:+ "'"))
  end.

(** One element of the sequence given to [dict.update], as a key and a
    value. *)
Definition pair_of (i : nat) (item : PyVal) : result (string * PyVal) :=
  let bad_length (n : nat) : result (string * PyVal) :=
    raise (ValueError
             ("dictionary update sequence element #" +:+ nat_to_string i
              +:+ " has length " +:+ nat_to_string n +:+ "; 2 is required")) in
  match item with
  | PList [PStr k; v] => ret (k, v)
  | PList [_; _] => raise (Unmodelled "a mapping key that is not a string")
  | PList l => bad_length (List.length l)
  | PStr s =>
      match utf8_chars s with
      | [k; v] => ret (k, PStr v)
      | l => bad_length (List.length l)
      end
  | PDict kvs =>
      match kvs with
      | [(k1, _); (k2, _)] => ret (k1, PStr k2)
      | _ => bad_length (List.length kvs)
      end
  | _ =>
      raise (TypeError
               ("cannot convert dictionary update sequence element #"
                +:+ nat_to_string i +:+ " to a sequence"))
  end.

Fixpoint pairs_from (i : nat) (items : list PyVal)
    : result (list (string * PyVal)) :=
  match items with
  | [] => ret []
  | x :: rest =>
      kv <- pair_of i x ;; kvs <- pairs_from (S i) rest ;; ret (kv :: kvs)
  end.

(** The items that [d.update(v)] stores: those of a mapping, or the pairs
    of any other iterable. *)
Definition update_items (v : PyVal) : result (list (string * PyVal)) :=
  match v with
  | PDict kvs => ret kvs
  | PList items => pairs_from 0 items
  | PStr s => pairs_from 0 (str_chars s)
  | PObject _ attrs =>
      if dict_mem "keys" attrs
      then raise (Unmodelled "an instance with an attribute keys")
      else
        raise (TypeError ("'" +:+ type_name v +:+ "' object is not iterable"))
  | _ => raise (TypeError ("'" +:+ type_name v +:+ "' object is not iterable"))
  end.

Section Conversions.
(** [waltz.html_markdown_utilities.h2m], [m2h] and the date helpers of
    [waltz.utilities]; each may raise. *)
Variable h2m : PyVal -> result PyVal.
Variable m2h : PyVal -> result PyVal.
Variable to_friendly_date : PyVal -> result PyVal.
Variable from_friendly_date : PyVal -> result PyVal.

(** [Assignment.to_disk].  The source fills the nested maps after it has
    stored them in their parent; a map keeps the position at which it was
    stored, so storing each nested map once it is complete gives the
    same keys in the same order. *)
Definition Assignment_to_disk (self : PyVal) : result PyVal :=
  let result_ : list (string * PyVal) := [] in
  v <- getattr self "name" ;;
  let result_ := dict_set result_ "name" v in
  v <- getattr self "html_url" ;;
  let result_ := dict_set result_ "url" v in
  let settings : list (string * PyVal) := [] in
  v <- getattr self "published" ;;
  let settings := dict_set settings "published" v in
  v <- getattr self "points_possible" ;;
  let settings := dict_set settings "points_possible" v in
  v <- getattr self "grading_type" ;;
  let settings := dict_set settings "grading_type" v in
  let submission : list (string * PyVal) := [] in
  submission <-
    (if hasattr self "allowed_extensions"
     then v <- getattr self "allowed_extensions" ;;
          ret (dict_set submission "extensions" v)
     else ret submission) ;;
  v <- getattr self "submission_types" ;;
  let submission := dict_set submission "submission_types" v in
  let settings := dict_set settings "submission" (PDict submission) in
  let timing : list (string * PyVal) := [] in
  v <- getattr self "due_at" ;;
  v <- to_friendly_date v ;;
  let timing := dict_set timing "due_at" v in
  v <- getattr self "unlock_at" ;;
  v <- to_friendly_date v ;;
  let timing := dict_set timing "unlock_at" v in
  v <- getattr self "lock_at" ;;
  v <- to_friendly_date v ;;
  let timing := dict_set timing "lock_at" v in
  let settings := dict_set settings "timing" (PDict timing) in
  let secrecy : list (string * PyVal) := [] in
  v <- getattr self "anonymize_students" ;;
  let secrecy := dict_set secrecy "anonymize_students" v in
  v <- getattr self "anonymous_grading" ;;
  let secrecy := dict_set secrecy "anonymous_grading" v in
  let settings := dict_set settings "secrecy" (PDict secrecy) in
  let result_ := dict_set result_ "settings" (PDict settings) in
  v <- getattr self "description" ;;
  v <- h2m v ;;
  let result_ := dict_set result_ "description" v in
  ret (PDict result_).

(** [settings.update(settings.pop(key))] *)
Definition merge_section (settings : list (string * PyVal)) (key : string)
    : result (list (string * PyVal)) :=
  popped <- dict_pop settings key ;;
  section_ <- update_items (fst popped) ;;
  ret (dict_update (snd popped) section_).

(** [d[key] = from_friendly_date(d[key])] *)
Definition friendly_field (d : list (string * PyVal)) (key : string)
    : result (list (string * PyVal)) :=
  v <- dict_getitem d key ;;
  v <- from_friendly_date v ;;
  ret (dict_set d key v).

(** [Assignment.from_disk].  [yaml_data['settings']] is one map mutated
    by three statements and then popped; [settings] follows it.  On a
    value that is not a mapping the first subscript already raises. *)
Definition Assignment_from_disk (course_ : Course) (yaml_data : PyVal)
    : result PyVal :=
  match yaml_data with
  | PDict yaml_data =>
  v <- dict_getitem yaml_data "description" ;;
  v <- m2h v ;;
  let yaml_data := dict_set yaml_data "description" v in
  settings <- dict_getitem yaml_data "settings" ;;
  settings <- as_dict_receiver "update" settings ;;
  settings <- merge_section settings "timing" ;;
  settings <- merge_section settings "secrecy" ;;
  settings <- merge_section settings "submission" ;;
  let yaml_data := dict_update (dict_remove yaml_data "settings") settings in
  yaml_data <- friendly_field yaml_data "due_at" ;;
  yaml_data <- friendly_field yaml_data "unlock_at" ;;
  yaml_data <- friendly_field yaml_data "lock_at" ;;
  popped <- dict_pop yaml_data "url" ;;
  let yaml_data := dict_set (snd popped) "html_url" (fst popped) in
  call_with_course "Assignment" yaml_data course_
  | _ => py_getitem yaml_data "description"
  end.
End Conversions.

(** [Outcome.from_disk(course, resource_data, resource_id)] *)
Definition Outcome_from_disk (course_ : Course) (resource_data : PyVal)
    : result PyVal :=
  data <- as_kwargs "Outcome" resource_data ;;
  call_with_course "Outcome" data course_.

(** ** The disk *)

(** Regular files by path, and the writes performed so far, oldest
    first.  Directories are not tracked. *)
Record Disk := mkDisk {
  files : gmap string string;
  write_log : list (string * string)
}.

(** [os.path.exists(p)], for the path of a regular file. *)
Definition path_exists (p : string) (d : Disk) : bool :=
  match files d !! p with Some _ => true | None => false end.

(** [open(p, 'r').read()] *)
Definition read_text (p : string) (d : Disk) : result string :=
  match files d !! p with
  | Some contents => ret (universal_newlines contents)
  | None => raise (FileNotFoundError p)
  end.

(** Opening [p] for writing and writing [contents]. *)
Definition write_file (p contents : string) (d : Disk) : Disk :=
  mkDisk (<[p := contents]> (files d)) (write_log d ++ [(p, contents)]).

(** Modelled from the spec: [waltz.utilities.ensure_dir] is not part of the
    source; it "ensures parent directories exist".  The disk tracks
    regular files only, so it leaves the model unchanged. *)
Definition ensure_dir (p : string) (d : Disk) : Disk := d.

(** [s.endswith(suffix)] *)
Definition endswith (s suffix : string) : bool :=
  let n := String.length s in
  let m := String.length suffix in
  (m <=? n)%nat && String.eqb (String.substring (n - m) m s) suffix.

(** [contents == new_version] with a string on the left: equal only to a
    string with the same characters. *)
Definition str_eq_val (contents : string) (new_version : PyVal) : bool :=
  is_str contents new_version.

(** ** [Course]: backups and writing to disk *)

Section Backups.
(** What [gzip.open(p, 'w?')] stores for the bytes written to it;
    [json.dump] and [yaml.dump] as the strings they print.  Strings are
    byte strings in UTF-8, so [str.encode()] is the identity. *)
Variable gzip_compress : string -> string.
Variable json_dumps : PyVal -> string.
Variable yaml_dump : PyVal -> string.

(** In both backup functions [datetime_filename] is the value that
    [make_datetime_filename()] returns at the call. *)
Definition backup_json (self : Course) (resource_id : ResourceID)
    (json_data : PyVal) (datetime_filename : string) (disk : Disk)
    : Disk * result unit :=
  match attr "filename" (filename resource_id) with
  | inl e => (disk, inl e)
  | inr filename_ =>
      let resource_path :=
        identify_filename (resource_type resource_id) filename_ in
      let backup_directory := path_join (backups self) resource_path in
      let disk := ensure_dir (backup_directory +:+ "/") disk in
      let timestamped_filename := datetime_filename +:+ ".json" +:+ ".gz" in
      let backup_path := path_join backup_directory timestamped_filename in
      (write_file backup_path (gzip_compress (json_dumps json_data)) disk,
       ret tt)
  end.

Definition backup_resource (self : Course) (resource_id : ResourceID)
    (new_version : PyVal) (datetime_filename : string) (disk : Disk)
    : Disk * result bool :=
  let extension_ := extension (resource_type resource_id) in
  match attr "filename" (filename resource_id) with
  | inl e => (disk, inl e)
  | inr filename_ =>
      let resource_path :=
        identify_filename (resource_type resource_id) filename_ in
      let backup_directory := path_join (backups self) resource_path in
      let disk := ensure_dir (backup_directory +:+ "/") disk in
      let timestamped_filename :=
        datetime_filename +:+ extension_ +:+ ".gz" in
      let backup_path := path_join backup_directory timestamped_filename in
      match attr "path" (path resource_id) with
      | inl e => (disk, inl e)
      | inr path_ =>
          if negb (path_exists path_ disk) then (disk, ret false)
          else
            match read_text path_ disk with
            | inl e => (disk, inl e)
            | inr contents =>
                if str_eq_val contents new_version then (disk, ret false)
                else (write_file backup_path (gzip_compress contents) disk,
                      ret true)
            end
      end
  end.

(** [Course.to_disk].  [resource_to_disk] is the bound method
    [resource.to_disk]; [walk_tree] only retags multi-line strings for the
    YAML printer without changing their text, which [PyVal] does not
    record; [log] writes to standard output.  A file opened with ['w'] is
    emptied before [write] checks that it was given a string. *)
Definition Course_to_disk (self : Course) (resource_id : ResourceID)
    (resource_to_disk : ResourceID -> result PyVal)
    (datetime_filename : string) (disk : Disk) : Disk * result unit :=
  match resource_to_disk resource_id with
  | inl e => (disk, inl e)
  | inr resource_data =>
      match backup_resource self resource_id resource_data
              datetime_filename disk with
      | (disk, inl e) => (disk, inl e)
      | (disk, inr backed_up) =>
          match attr "path" (path resource_id) with
          | inl e => (disk, inl e)
          | inr path_ =>
              let disk := ensure_dir path_ disk in
              if endswith path_ ".yaml"
              then (write_file path_ (yaml_dump resource_data) disk, ret tt)
              else
                match resource_data with
                | PStr text => (write_file path_ text disk, ret tt)
                | _ =>
                    (write_file path_ "" disk,
                     raise (TypeError "write() argument must be str"))
                end
          end
      end
  end.
End Backups.

(** ** The outcome cache *)

Section OutcomeCache.
Variable glob : string -> list string.
(** [yaml.load] on the text of a bank file. *)
Variable yaml_load : string -> result PyVal.
(** The disk is only read here. *)
Variable disk : Disk.

(** [outcomes.items()] *)
Definition py_items (v : PyVal) : result (list (string * PyVal)) :=
  match v with
  | PDict kvs => ret kvs
  | _ => raise (AttributeError "object has no attribute 'items'")
  end.

(** The inner loop of [load_all] over the outcomes of one bank.  The
    cache is returned as the loop left it, also when a turn raises. *)
Fixpoint store_outcomes (course_ : Course) (bank : string)
    (items : list (string * PyVal))
    (CACHE : list (string * list (string * PyVal)))
    : list (string * list (string * PyVal)) * result unit :=
  match items with
  | [] => (CACHE, ret tt)
  | (name_, outcome) :: rest =>
      match
        (new_outcome <-
           Outcome_from_disk course_ (PDict [("body", outcome)]) ;;
         new_outcome <-
           setattr new_outcome "bank_source" (PStr (path_dirname bank)) ;;
         entries <- dict_getitem CACHE (course_name course_) ;;
         ret (dict_set CACHE (course_name course_)
                (dict_set entries name_ new_outcome)))
      with
      | inl e => (CACHE, inl e)
      | inr CACHE' => store_outcomes course_ bank rest CACHE'
      end
  end.

(** The outer loop of [load_all] over the bank files. *)
Fixpoint load_banks (course_ : Course) (banks : list string)
    (CACHE : list (string * list (string * PyVal)))
    : list (string * list (string * PyVal)) * result unit :=
  match banks with
  | [] => (CACHE, ret tt)
  | bank :: rest =>
      match
        (text <- read_text bank disk ;;
         outcomes <- yaml_load text ;;
         py_items outcomes)
      with
      | inl e => (CACHE, inl e)
      | inr items =>
          match store_outcomes course_ bank items CACHE with
          | (CACHE', inl e) => (CACHE', inl e)
          | (CACHE', inr _) => load_banks course_ rest CACHE'
          end
      end
  end.

(** [Outcome.load_all(course)] on the class attribute [Outcome.CACHE]. *)
Definition load_all (course_ : Course)
    (CACHE : list (string * list (string * PyVal)))
    : list (string * list (string * PyVal)) * result unit :=
  let category_folder :=
    path_join_all [root_directory course_; canonical_category Outcome;
                   "**"; "*" +:+ extension Outcome] in
  let CACHE := dict_set CACHE (course_name course_) [] in
  load_banks course_ (glob category_folder) CACHE.

(** The first statement of the filter: load the course on a miss. *)
Definition ensure_loaded (course_ : Course)
    (CACHE : list (string * list (string * PyVal)))
    : list (string * list (string * PyVal)) * result unit :=
  if negb (dict_mem (course_name course_) CACHE)
  then load_all course_ CACHE
  else (CACHE, ret tt).

(** [Outcome.load_outcome_by_name(course)] returns the closure
    [_wrapped]; this is [_wrapped(outcome_name)] with the closed-over
    [course] as first argument. *)
Definition load_outcome_by_name (course_ : Course) (outcome_name : string)
    (CACHE : list (string * list (string * PyVal)))
    : list (string * list (string * PyVal)) * result PyVal :=
  match ensure_loaded course_ CACHE with
  | (CACHE', inl e) => (CACHE', inl e)
  | (CACHE', inr _) =>
      match dict_getitem CACHE' (course_name course_) with
      | inl e => (CACHE', inl e)
      | inr entries =>
          (CACHE',
           ret (dict_get_default entries outcome_name (PStr outcome_name)))
      end
  end.
End OutcomeCache.

(** ** The rest of [Course] and of the variants *)

(** [str(v)], as ["{}".format(v)] prints it: a string is printed as it
    is, and for the other modelled values [str] is [repr]. *)
Definition py_str (repr : PyVal -> string) (v : PyVal) : string :=
  match v with
  | PStr s => s
  | _ => repr v
  end.

(** [self.title]: the class attribute [Resource.title] stands in when the
    instance has no attribute of that name. *)
Definition getattr_title (self : PyVal) : result PyVal :=
  match self with
  | PObject _ attrs =>
      match dict_get attrs "title" with
      | Some v => ret v
      | None => ret (PStr "Untitled Instance")
      end
  | _ => raise (AttributeError "object has no attribute 'title'")
  end.

Section Remote.
(** [post] and [put] of [waltz.canvas_tools], as
    [verb(endpoint, data=json_data, course=course_name)]; [get] as in the
    resolver. *)
Variable get : string -> list (string * PyVal) -> string -> bool -> PyVal.
Variable post : string -> PyVal -> string -> PyVal.
Variable put : string -> PyVal -> string -> PyVal.
Variable repr : PyVal -> string.

(** [Resource.put_on_canvas] *)
Definition put_on_canvas (cls : ResourceType) (course_name_ : string)
    (id : PyVal) (json_data : PyVal) : result PyVal :=
  let result_ :=
    match id with
    | PNone => post (canvas_name cls) json_data course_name_
    | _ =>
        put (canvas_name cls +:+ "/" +:+ py_str repr id) json_data
          course_name_
    end in
  has_errors <- py_contains "errors" result_ ;;
  if has_errors
  then raise (WaltzException ("Errors in Canvas data: " +:+ repr result_))
  else ret result_.

(** [Course.push]; the identifier is returned as the assignments left
    it. *)
Definition Course_push (self : Course) (resource_id : ResourceID)
    (json_data : PyVal) : ResourceID * result unit :=
  match
    (data <- attr "canvas_data" (canvas_data resource_id) ;;
     id <- match data with
           | PBool true => ret PNone
           | _ => identify_id (resource_type resource_id) data
           end ;;
     put_on_canvas (resource_type resource_id) (course_name self) id
       json_data)
  with
  | inl e => (resource_id, inl e)
  | inr answer => _parse_canvas_data (set_canvas_data answer resource_id)
  end.

(** [Page.from_json] *)
Definition Page_from_json (course_ : Course) (json_data : PyVal)
    : result PyVal :=
  has_body <- py_contains "body" json_data ;;
  json_data <-
    (if negb has_body
     then
       url <- py_getitem json_data "url" ;;
       let data :=
         get (canvas_name Page +:+ "/" +:+ py_str repr url) []
           (course_name course_) false in
       body <- py_getitem data "body" ;;
       py_setitem json_data "body" body
     else ret json_data) ;;
  d <- as_kwargs "Page" json_data ;;
  call_with_course "Page" d course_.

End Remote.

(** [Assignment.from_json] *)
Definition Assignment_from_json (course_ : Course) (json_data : PyVal)
    : result PyVal :=
  d <- as_kwargs "Assignment" json_data ;;
  call_with_course "Assignment" d course_.

Section PageConversions.
Variable h2m : PyVal -> result PyVal.
Variable m2h : PyVal -> result PyVal.

(** [Page.to_disk] *)
Definition Page_to_disk (self : PyVal) : result PyVal :=
  body <- getattr self "body" ;;
  h2m body.

(** [Page.from_disk]: the keywords are [body], [course], [title], in
    that order. *)
Definition Page_from_disk (course_ : Course) (resource_data : PyVal)
    (resource_id : ResourceID) : result PyVal :=
  body <- m2h resource_data ;;
  title <- attr "canvas_title" (canvas_title resource_id) ;;
  Resource_init "Page"
    [("body", body); ("course", PCourse course_); ("title", title)].
End PageConversions.

(** [Page.to_json] *)
Definition Page_to_json (self : PyVal) : result PyVal :=
  body <- getattr self "body" ;;
  title <- getattr_title self ;;
  ret (PDict [("wiki_page[body]", body); ("wiki_page[title]", title)]).

Section FromDisk.
(** [yaml.load] on the text of the file. *)
Variable yaml_load : string -> result PyVal.

(** [Course.from_disk]; [from_disk] is the class method
    [resource_id.resource_type.from_disk]. *)
Definition Course_from_disk (self : Course) (resource_id : ResourceID)
    (from_disk : Course -> PyVal -> ResourceID -> result PyVal)
    (disk : Disk) : result PyVal :=
  path_ <- attr "path" (path resource_id) ;;
  if negb (path_exists path_ disk) then ret PNone
  else
    resource_yaml <-
      (if endswith path_ ".yaml"
       then text <- read_text path_ disk ;; yaml_load text
       else text <- read_text path_ disk ;; ret (PStr text)) ;;
    from_disk self resource_yaml resource_id.
End FromDisk.

Section Lookup.
(** [get(category, all=True, course=..., data={...})]: the search is
    passed as [data] here. *)
Variable get_data : string -> list (string * PyVal) -> string -> bool -> PyVal.
Variable repr : PyVal -> string.

(** The loop of [Course.identify_resource_by_name] over the categories
    left; its [else] branch is reached when they are used up. *)
Fixpoint identify_in (self : Course) (resource_name : string)
    (categories : list string) : result (string * PyVal) :=
  match categories with
  | [] => raise (WaltzException ("No results for: " +:+ resource_name))
  | category_ :: rest =>
      let results :=
        get_data category_ [("search_term", PStr resource_name)]
          (course_name self) true in
      n <- py_len results ;;
      if (1 <? n)%nat
      then raise (WaltzException ("Too many results for: " +:+ resource_name))
      else if truthy results
      then first <- py_first results ;; ret (category_, first)
      else identify_in self resource_name rest
  end.

Definition identify_resource_by_name (self : Course) (resource_name : string)
    : result (string * PyVal) :=
  identify_in self resource_name ["assignments"; "pages"].

(** [Course.make_link] *)
Definition make_link (self : Course) (resource_name : string)
    : result string :=
  found <- identify_resource_by_name self resource_name ;;
  url <- py_getitem (snd found) "html_url" ;;
  ret ("[" +:+ resource_name +:+ "](" +:+ py_str repr url +:+ ")").
End Lookup.

(** [Resource._get_first_field(data, *fields, default, convert)];
    [convert = None] is the default [False]. *)
Fixpoint _get_first_field (data : PyVal) (fields : list string)
    (default : PyVal) (convert : option (PyVal -> result PyVal))
    : result PyVal :=
  match fields with
  | [] => ret default
  | field :: rest =>
      present <- py_contains field data ;;
      if present then
        value <- py_getitem data field ;;
        if truthy value then
          match convert with
          | Some f => if str_contains "html" field then f value else ret value
          | None => ret value
          end
        else _get_first_field data rest default convert
      else _get_first_field data rest default convert
  end.

(** ** Example data *)

(** A descriptor for [Quiz] with the names Canvas uses for quizzes. *)
Definition Quiz_example : ResourceType := {|
  class_name := "Quiz";
  category_names := ["quiz"; "quizzes"];
  canvas_name := "quizzes";
  canonical_category := "quizzes";
  canvas_title_field := "title";
  canvas_id_field := "id";
  extension := ".yaml"
|}.

Definition course_example : Course :=
  mkCourse "cs1" "cs1/_backups" "cs1/_templates" "CS1-2019".

Definition search_example : ResourceID :=
  mkResourceID course_example "assignment/?Homework" "assignment" "?"
    (Some "Homework") Assignment None None None None None None.

(** A match returned by a remote search is a JSON object. *)
Definition is_json_object (v : PyVal) : Prop := exists kvs, v = PDict kvs.

(** Stand-ins for a converter and its inverse: wrapping a value in a
    one-element list, and unwrapping it. *)
Definition wrap_example (v : PyVal) : result PyVal := inr (PList [v]).

Definition unwrap_example (v : PyVal) : result PyVal :=
  match v with
  | PList [x] => inr x
  | _ => inl (ValueError "not a wrapped value")
  end.

Definition assignment_example : PyVal :=
  PObject "Assignment"
    [("id", PInt 7);
     ("name", PStr "Homework 1");
     ("description", PStr "<p>Read chapter 1.</p>");
     ("html_url", PStr "https://canvas.example/courses/1/assignments/7");
     ("published", PBool true);
     ("points_possible", PInt 10);
     ("grading_type", PStr "points");
     ("submission_types", PList [PStr "online_upload"]);
     ("due_at", PStr "2019-09-01T03:59:59Z");
     ("unlock_at", PNone);
     ("lock_at", PNone);
     ("anonymize_students", PBool false);
     ("anonymous_grading", PBool false);
     ("course", PCourse course_example);
     ("unmatched_parameters", PDict [])].

(** The disk form of [assignment_example] under the stand-in converters,
    and the instance read back from it. *)
Definition assignment_example_on_disk : PyVal :=
  PDict
    [("name", PStr "Homework 1");
     ("url", PStr "https://canvas.example/courses/1/assignments/7");
     ("settings",
      PDict
        [("published", PBool true); ("points_possible", PInt 10);
         ("grading_type", PStr "points");
         ("submission",
          PDict [("submission_types", PList [PStr "online_upload"])]);
         ("timing",
          PDict
            [("due_at", PList [PStr "2019-09-01T03:59:59Z"]);
             ("unlock_at", PList [PNone]);
             ("lock_at", PList [PNone])]);
         ("secrecy",
          PDict
            [("anonymize_students", PBool false);
             ("anonymous_grading", PBool false)])]);
     ("description", PList [PStr "<p>Read chapter 1.</p>"])].

Definition assignment_example_back : PyVal :=
  PObject "Assignment"
    [("name", PStr "Homework 1");
     ("description", PStr "<p>Read chapter 1.</p>");
     ("published", PBool true); ("points_possible", PInt 10);
     ("grading_type", PStr "points");
     ("due_at", PStr "2019-09-01T03:59:59Z");
     ("unlock_at", PNone); ("lock_at", PNone);
     ("anonymize_students", PBool false);
     ("anonymous_grading", PBool false);
     ("submission_types", PList [PStr "online_upload"]);
     ("html_url", PStr "https://canvas.example/courses/1/assignments/7");
     ("course", PCourse course_example);
     ("unmatched_parameters", PDict [])].

(** A page identifier resolved to an existing file, a disk holding that
    file, and stand-ins for the compressor and the JSON printer. *)
Definition page_id_example : ResourceID :=
  mkResourceID course_example "page/?Syllabus" "page" "?" (Some "Syllabus")
    Page
    (Some (PDict [("url", PStr "syllabus"); ("title", PStr "Syllabus")]))
    (Some (PStr "Syllabus")) (Some (PStr "syllabus"))
    (Some "Syllabus.md") (Some false) (Some "cs1/pages/Syllabus.md").

Definition disk_example : Disk :=
  mkDisk {[ "cs1/pages/Syllabus.md" := "old text" ]} [].

Definition gzip_example (s : string) : string := "gz:" +:+ s.

Definition json_example (v : PyVal) : string :=
  match v with PStr s => s | _ => "null" end.

(** One outcome bank on disk, with a stand-in for the YAML reader, and
    the cache after loading it. *)
Definition outcome_glob_example (pattern : string) : list string :=
  if String.eqb pattern "cs1/outcomes/**/*.yaml"
  then ["cs1/outcomes/bank.yaml"] else [].

Definition outcome_disk_example : Disk :=
  mkDisk {[ "cs1/outcomes/bank.yaml" := "Loops: Write loops" ]} [].

Definition outcome_yaml_example (text : string) : result PyVal :=
  if String.eqb text "Loops: Write loops"
  then inr (PDict [("Loops", PStr "Write loops")])
  else inl (ValueError "not the example bank").

Definition outcome_cache_example : list (string * list (string * PyVal)) :=
  [("CS1-2019",
    [("Loops",
      PObject "Outcome"
        [("body", PStr "Write loops");
         ("course", PCourse course_example);
         ("unmatched_parameters", PDict []);
         ("bank_source", PStr "cs1/outcomes")])])].

(** A page identifier for a direct fetch, before resolution. *)
Definition direct_example : ResourceID :=
  mkResourceID course_example "page/:syllabus" "page" ":" (Some "syllabus")
    Page None None None None None None.

(** A page identifier that is new on the remote and on disk. *)
Definition new_page_example : ResourceID :=
  mkResourceID course_example "page/+Week 1" "page" "+" (Some "Week 1")
    Page (Some (PBool true)) (Some (PStr "Week 1")) (Some PNone)
    (Some "Week_1.md") (Some true) (Some "cs1/pages/Week_1.md").

(** An assignment identifier resolved to an existing YAML file, and a
    disk holding that file. *)
Definition assignment_id_example : ResourceID :=
  mkResourceID course_example "assignment/?Homework" "assignment" "?"
    (Some "Homework") Assignment
    (Some (PDict [("id", PInt 7); ("name", PStr "Homework 1")]))
    (Some (PStr "Homework 1")) (Some (PInt 7))
    (Some "Homework_1.yaml") (Some false)
    (Some "cs1/assignments/Homework_1.yaml").

Definition assignment_disk_example : Disk :=
  mkDisk {[ "cs1/assignments/Homework_1.yaml" := "null" ]} [].

(** A page, and stand-ins for the two Markdown converters on strings. *)
Definition page_example : PyVal :=
  PObject "Page"
    [("body", PStr "<p>Welcome</p>"); ("course", PCourse course_example);
     ("title", PStr "Syllabus"); ("unmatched_parameters", PDict [])].

Definition wrap_text_example (v : PyVal) : result PyVal :=
  match v with
  | PStr s => inr (PStr ("md:" +:+ s))
  | _ => inl (TypeError "expected a string")
  end.

Definition unwrap_text_example (v : PyVal) : result PyVal :=
  match v with
  | PStr (String "m" (String "d" (String ":" s))) => inr (PStr s)
  | _ => inl (ValueError "not converted text")
  end.

(** A remote that knows one assignment and no page by the name asked. *)
Definition lookup_example (category_ : string)
    (data : list (string * PyVal)) (course_name_ : string) (all : bool)
    : PyVal :=
  if String.eqb category_ "assignments"
  then PList [PDict [("name", PStr "Homework 1");
                     ("html_url", PStr "https://canvas.example/a/7")]]
  else PList [].

(** A stand-in for [repr] on strings without quotes or escapes. *)
Definition quote_example (v : PyVal) : string :=
  match v with
  | PStr s => "'" +:+ s +:+ "'"
  | _ => ""
  end.

(** * Properties *)

(** ** Dictionaries *)

Section DictFacts.
Context {V : Type}.
Implicit Types (d : list (string * V)) (k : string) (v : V).

Lemma dict_get_set_eq d k v : dict_get (dict_set d k v) k = Some v.
Proof.
  induction d as [|[k' v'] d IH]; simpl.
  - now rewrite String.eqb_refl.
  - destruct (String.eqb k k') eqn:E; simpl.
    + now rewrite String.eqb_refl.
    + now rewrite E.
Qed.

Lemma dict_get_set_ne d k k' v :
  k <> k' -> dict_get (dict_set d k v) k' = dict_get d k'.
Proof.
  intros Hne. induction d as [|[k0 v0] d IH]; simpl.
  - destruct (String.eqb k' k) eqn:E; [|reflexivity].
    apply String.eqb_eq in E. congruence.
  - destruct (String.eqb k k0) eqn:E; simpl.
    + apply String.eqb_eq in E. subst k0.
      destruct (String.eqb k' k) eqn:E'; [|reflexivity].
      apply String.eqb_eq in E'. congruence.
    + now rewrite IH.
Qed.

Lemma dict_get_update_notin d other k :
  ~ In k (dict_keys other) ->
  dict_get (dict_update d other) k = dict_get d k.
Proof.
  unfold dict_update. revert d.
  induction other as [|[k0 v0] other IH]; intros d Hnot; simpl.
  - reflexivity.
  - rewrite IH.
    + apply dict_get_set_ne. intros ->. apply Hnot. now left.
    + intros Hin. apply Hnot. now right.
Qed.

Lemma dict_get_update_in d other k v :
  List.NoDup (dict_keys other) ->
  dict_get other k = Some v ->
  dict_get (dict_update d other) k = Some v.
Proof.
  unfold dict_update. revert d.
  induction other as [|[k0 v0] other IH]; intros d Hnd Hget; simpl in *.
  - discriminate.
  - inversion Hnd as [|? ? Hnotin Hnd']; subst.
    destruct (String.eqb k k0) eqn:E.
    + apply String.eqb_eq in E. subst k0. injection Hget as ->.
      fold (dict_update (dict_set d k v) other).
      rewrite dict_get_update_notin by exact Hnotin.
      apply dict_get_set_eq.
    + now apply IH.
Qed.

Lemma dict_get_In d k v : dict_get d k = Some v -> In k (dict_keys d).
Proof.
  induction d as [|[k0 v0] d IH]; simpl; [discriminate|].
  destruct (String.eqb k k0) eqn:E.
  - apply String.eqb_eq in E. now left.
  - intros H. right. now apply IH.
Qed.

Lemma dict_get_notin d k : ~ In k (dict_keys d) -> dict_get d k = None.
Proof.
  intros Hnot. destruct (dict_get d k) eqn:E; [|reflexivity].
  exfalso. apply Hnot. eapply dict_get_In, E.
Qed.
End DictFacts.

(** ** [Resource.__init__] *)

Lemma object_setattr_plain (attrs : list (string * PyVal)) (k : string)
    (v : PyVal) :
  plain_name k = true -> object_setattr attrs k v = ret (dict_set attrs k v).
Proof.
  unfold plain_name, object_setattr. intros H.
  apply negb_true_iff in H.
  apply orb_false_elim in H as [H Hdict].
  apply orb_false_elim in H as [H Hweak].
  apply orb_false_elim in H as [_ Hclass].
  now rewrite Hclass, Hweak, Hdict.
Qed.

Lemma plain_names_without_self (kwargs : list (string * PyVal)) :
  forallb plain_name (dict_keys kwargs) = true ->
  dict_mem "self" kwargs = false.
Proof.
  intros Hplain. unfold dict_mem.
  destruct (dict_get kwargs "self") as [v|] eqn:E; [|reflexivity].
  apply dict_get_In in E.
  rewrite forallb_forall in Hplain. now apply Hplain in E.
Qed.

(** Each turn of the loop deletes the key it has just set, which is the
    first key left: after the loop the keyword dictionary is empty. *)
Lemma init_loop_empties_kwargs (items attrs : list (string * PyVal)) :
  forallb plain_name (dict_keys items) = true ->
  fold_left init_step items (ret (attrs, items))
  = ret (dict_update attrs items, []).
Proof.
  revert attrs. induction items as [|[k v] items IH]; intros attrs Hplain.
  - reflexivity.
  - cbn [dict_keys map fst forallb] in Hplain.
    apply andb_true_iff in Hplain as [Hk Hrest].
    cbn [fold_left init_step bind ret fst snd].
    rewrite (object_setattr_plain attrs k v Hk). cbn [bind ret].
    unfold dict_del. cbn [dict_get dict_remove]. rewrite String.eqb_refl.
    cbn [bind ret]. exact (IH (dict_set attrs k v) Hrest).
Qed.

Lemma Resource_init_eq (cls : string) (kwargs : list (string * PyVal)) :
  forallb plain_name (dict_keys kwargs) = true ->
  Resource_init cls kwargs
  = ret (PObject cls
           (dict_set (dict_update [] kwargs) "unmatched_parameters" (PDict []))).
Proof.
  intros Hplain. unfold Resource_init.
  rewrite (plain_names_without_self kwargs Hplain).
  now rewrite (init_loop_empties_kwargs kwargs [] Hplain).
Qed.



(** The four names set apart: a keyword [self] is refused at the call,
    [__class__] and [__weakref__] are refused by [setattr], and a mapping
    given as [__dict__] becomes the instance dictionary, so that the
    fields set before it are gone. *)
Example Resource_init_reserved_names :
  Resource_init "Page" [("title", PStr "T"); ("self", PInt 1)]
  = inl (TypeError
           "Resource.__init__() got multiple values for argument 'self'")
  /\ Resource_init "Page" [("title", PStr "T"); ("__class__", PInt 1)]
     = inl (TypeError "__class__ must be set to a class, not 'int' object")
  /\ Resource_init "Page" [("title", PStr "T"); ("__weakref__", PInt 1)]
     = inl (AttributeError
              "attribute '__weakref__' of 'Resource' objects is not writable")
  /\ Resource_init "Page"
       [("id", PInt 7); ("__dict__", PDict [("body", PStr "B")]);
        ("title", PStr "T")]
     = inr (PObject "Page"
              [("body", PStr "B"); ("title", PStr "T");
               ("unmatched_parameters", PDict [])]).
Proof. repeat split. Qed.


(** ** The registry *)

Lemma dict_get_register (names : list string) (rt : ResourceType)
    (reg : list (string * ResourceType)) (k : string) :
  dict_get (fold_left (fun reg c => dict_set reg c rt) names reg) k
  = if existsb (String.eqb k) names then Some rt else dict_get reg k.
Proof.
  revert reg. induction names as [|c names IH]; intros reg; simpl.
  - reflexivity.
  - rewrite IH. destruct (existsb (String.eqb k) names).
    + now rewrite orb_true_r.
    + rewrite orb_false_r. destruct (String.eqb k c) eqn:E.
      * apply String.eqb_eq in E. subst c. apply dict_get_set_eq.
      * apply dict_get_set_ne. intros ->. now rewrite String.eqb_refl in E.
Qed.

(** Later variants of [ALL_RESOURCES] overwrite earlier ones. *)
Lemma RESOURCE_CATEGORIES_lookup (Quiz : ResourceType) (k : string) :
  dict_get (RESOURCE_CATEGORIES Quiz) k
  = if existsb (String.eqb k) (category_names Assignment) then Some Assignment
    else if existsb (String.eqb k) (category_names Page) then Some Page
    else if existsb (String.eqb k) (category_names Quiz) then Some Quiz
    else None.
Proof.
  unfold RESOURCE_CATEGORIES, ALL_RESOURCES.
  cbn [fold_left]. now rewrite !dict_get_register.
Qed.

Lemma existsb_eqb_In (k : string) (names : list string) :
  existsb (String.eqb k) names = true <-> In k names.
Proof.
  rewrite existsb_exists. split.
  - intros (x & Hin & E). apply String.eqb_eq in E. now subst.
  - intros Hin. exists k. split; [exact Hin|apply String.eqb_refl].
Qed.

(** The aliases of [Page] and [Assignment] are registered whatever [Quiz]
    declares. *)
Lemma page_and_assignment_registered (Quiz : ResourceType) :
  dict_get (RESOURCE_CATEGORIES Quiz) "page" = Some Page /\
  dict_get (RESOURCE_CATEGORIES Quiz) "pages" = Some Page /\
  dict_get (RESOURCE_CATEGORIES Quiz) "assignment" = Some Assignment /\
  dict_get (RESOURCE_CATEGORIES Quiz) "assignments" = Some Assignment /\
  dict_get (RESOURCE_CATEGORIES Quiz) "a" = Some Assignment.
Proof. rewrite !RESOURCE_CATEGORIES_lookup. repeat split. Qed.

Lemma quiz_aliases_registered (Quiz : ResourceType) (k : string) :
  In k (category_names Quiz) ->
  exists rt, dict_get (RESOURCE_CATEGORIES Quiz) k = Some rt.
Proof.
  intros Hin. rewrite RESOURCE_CATEGORIES_lookup.
  apply existsb_eqb_In in Hin. rewrite Hin.
  repeat match goal with |- context [if ?b then _ else _] => destruct b end;
    eauto.
Qed.

(** C6 at its failing input: [Outcome] is not in [ALL_RESOURCES], so
    unless [Quiz] claims the name, the category [outcome] is not in the
    registry and parsing an outcome identifier raises the unknown-category
    error. *)
Theorem outcome_category_not_registered
    (repr : PyVal -> string) (Quiz : ResourceType)
    (lower_unicode : string -> string) (rest : string) :
  ~ In "outcome" (category_names Quiz) ->
  dict_get (RESOURCE_CATEGORIES Quiz) "outcome" = None /\
  _parse_type repr Quiz lower_unicode ("outcome/" +:+ rest)
  = inl (WaltzException
           ("Category outcome not found (full Resource ID: "
            +:+ repr (PStr ("outcome/" +:+ rest)) +:+ ")")).
Proof.
  intros Hnot.
  assert (Hreg : dict_get (RESOURCE_CATEGORIES Quiz) "outcome" = None).
  { rewrite RESOURCE_CATEGORIES_lookup.
    destruct (existsb (String.eqb "outcome") (category_names Quiz)) eqn:E;
      [|reflexivity].
    apply existsb_eqb_In in E. contradiction. }
  split; [exact Hreg|].
  unfold _parse_type.
  change (split_slash_once ("outcome/" +:+ rest)) with ["outcome"; rest].
  cbv beta iota zeta.
  change (py_lower lower_unicode "outcome") with "outcome".
  now rewrite Hreg.
Qed.

Lemma outcome_category_not_registered_witness :
  dict_get (RESOURCE_CATEGORIES Quiz_example) "outcome" = None /\
  _parse_type (fun _ => "'outcome/?Loops'") Quiz_example (fun s => s)
    ("outcome/" +:+ "?Loops")
  = inl (WaltzException
           ("Category outcome not found (full Resource ID: "
            +:+ "'outcome/?Loops'" +:+ ")")).
Proof.
  apply (outcome_category_not_registered
           (fun _ => "'outcome/?Loops'") Quiz_example (fun s => s) "?Loops").
  simpl. intuition discriminate.
Defined.

(** ** Parsing and resolving identifiers *)

Lemma prefix_slash (c : ascii) (s : string) :
  String.prefix "/" (String c s) = Ascii.eqb c "/".
Proof.
  cbn [String.prefix]. destruct (ascii_dec "/" c) as [<-|Hne].
  - rewrite Ascii.eqb_refl. now destruct s.
  - symmetry. apply Ascii.eqb_neq. congruence.
Qed.

Lemma split_slash_once_no_slash (cat rest : string) :
  str_contains "/" cat = false ->
  split_slash_once (cat +:+ "/" +:+ rest) = [cat; rest].
Proof.
  induction cat as [|c cat IH]; intros H.
  - reflexivity.
  - change (str_contains "/" (String c cat))
      with (String.prefix "/" (String c cat) || str_contains "/" cat) in H.
    rewrite prefix_slash in H. apply orb_false_elim in H as [Hc Hrest].
    simpl. rewrite Hc. fold String.append.
    now rewrite (IH Hrest).
Qed.

Lemma parse_wildcard (repr : PyVal -> string) (Quiz : ResourceType)
    (lower_unicode : string -> string)
    (cat : string) (rt : ResourceType) :
  str_contains "/" cat = false ->
  dict_get (RESOURCE_CATEGORIES Quiz) (py_lower lower_unicode cat) = Some rt ->
  _parse_type repr Quiz lower_unicode (cat +:+ "/*")
  = inr (py_lower lower_unicode cat, "*", None, rt).
Proof.
  intros Hcat Hreg. unfold _parse_type.
  change (cat +:+ "/*") with (cat +:+ "/" +:+ "*").
  rewrite (split_slash_once_no_slash cat "*" Hcat).
  cbv beta iota zeta. now rewrite Hreg.
Qed.

(** C5 at its failing inputs: for every registered category,
    [_parse_type] accepts ["<category>/*"] and returns the command ["*"]
    with the name [None], and the constructor then raises the
    unknown-command error, because [_get_canvas_data] knows the commands
    [+], [?] and [:] only. *)
Theorem wildcard_identifier_raises_unknown_command
    (get : string -> list (string * PyVal) -> string -> bool -> PyVal)
    (repr : PyVal -> string) (indent4 : string -> string)
    (make_safe_filename : PyVal -> result string)
    (glob : string -> list string) (Quiz : ResourceType)
    (lower_unicode : string -> string)
    (course_ : Course) (cat : string) (rt : ResourceType) :
  str_contains "/" cat = false ->
  dict_get (RESOURCE_CATEGORIES Quiz) (py_lower lower_unicode cat) = Some rt ->
  _parse_type repr Quiz lower_unicode (cat +:+ "/*")
  = inr (py_lower lower_unicode cat, "*", None, rt) /\
  ResourceID_init get repr indent4 make_safe_filename glob Quiz lower_unicode
    course_
    (cat +:+ "/*")
  = inl (WaltzException ("Unknown command: " +:+ repr (PStr "*"))).
Proof.
  intros Hcat Hreg.
  pose proof (parse_wildcard repr Quiz lower_unicode cat rt Hcat Hreg) as Hparse.
  split; [exact Hparse|].
  unfold ResourceID_init. rewrite Hparse. reflexivity.
Qed.

Lemma wildcard_identifier_raises_unknown_command_witness :
  _parse_type (fun _ => "'*'") Quiz_example (fun s => s) ("page" +:+ "/*")
  = inr (py_lower (fun s => s) "page", "*", None, Page) /\
  ResourceID_init (fun _ _ _ _ => PList []) (fun _ => "'*'") (fun s => s)
    (fun _ => inr "x") (fun _ => []) Quiz_example (fun s => s) course_example
    ("page" +:+ "/*")
  = inl (WaltzException ("Unknown command: " +:+ "'*'")).
Proof.
  apply (wildcard_identifier_raises_unknown_command
           (fun _ _ _ _ => PList []) (fun _ => "'*'") (fun s => s)
           (fun _ => inr "x") (fun _ => []) Quiz_example (fun s => s) course_example
           "page" Page); reflexivity.
Defined.

(** The identifier of the specification's example. *)
Example parse_search_example (repr : PyVal -> string) (Quiz : ResourceType)
    (lower_unicode : string -> string) :
  _parse_type repr Quiz lower_unicode "assignment/?Homework 1"
  = inr ("assignment", "?", Some "Homework 1", Assignment).
Proof.
  unfold _parse_type.
  change (split_slash_once "assignment/?Homework 1")
    with ["assignment"; "?Homework 1"].
  cbv beta iota zeta. change (py_lower lower_unicode "assignment") with "assignment".
  destruct (page_and_assignment_registered Quiz) as (_ & _ & -> & _).
  reflexivity.
Qed.

Lemma parse_any_command (repr : PyVal -> string) (Quiz : ResourceType)
    (lower_unicode : string -> string)
    (cat : string) (c : ascii) (nm : string) (rt : ResourceType) :
  str_contains "/" cat = false ->
  dict_get (RESOURCE_CATEGORIES Quiz) (py_lower lower_unicode cat) = Some rt ->
  String.eqb (String c nm) "*" = false ->
  _parse_type repr Quiz lower_unicode (cat +:+ "/" +:+ String c nm)
  = inr (py_lower lower_unicode cat, str_head (String c nm),
         Some (str_tail (String c nm)), rt).
Proof.
  intros Hcat Hreg Hstar. unfold _parse_type.
  rewrite (split_slash_once_no_slash cat (String c nm) Hcat).
  cbv beta iota zeta. now rewrite Hreg, Hstar.
Qed.

(** A command that is a one-byte character, an ASCII one for instance. *)
Lemma parse_command (repr : PyVal -> string) (Quiz : ResourceType)
    (lower_unicode : string -> string)
    (cat : string) (c : ascii) (nm : string) (rt : ResourceType) :
  str_contains "/" cat = false ->
  dict_get (RESOURCE_CATEGORIES Quiz) (py_lower lower_unicode cat) = Some rt ->
  String.eqb (String c nm) "*" = false ->
  utf8_width c = 1%nat ->
  _parse_type repr Quiz lower_unicode (cat +:+ "/" +:+ String c nm)
  = inr (py_lower lower_unicode cat, String c "", Some nm, rt).
Proof.
  intros Hcat Hreg Hstar Hone.
  rewrite (parse_any_command repr Quiz lower_unicode cat c nm rt Hcat Hreg
             Hstar).
  unfold str_head, str_tail. rewrite Hone. reflexivity.
Qed.

Lemma no_errors_among_objects (matches : list PyVal) :
  Forall is_json_object matches -> existsb (is_str "errors") matches = false.
Proof.
  induction 1 as [|m matches [kvs ->] _ IH]; simpl; [reflexivity|exact IH].
Qed.

Lemma mapM_titles (field : string) (matches : list PyVal)
    (titles : list string) :
  Forall2 (fun m t => identify_field field m = inr (PStr t)) matches titles ->
  mapM (identify_field field) matches = inr (map PStr titles).
Proof.
  induction 1 as [|m t matches titles Hm _ IH]; simpl.
  - reflexivity.
  - now rewrite Hm, IH.
Qed.

Lemma py_join_strs (sep : string) (titles : list string) :
  py_join sep (map PStr titles) = inr (str_join sep titles).
Proof.
  unfold py_join.
  assert (H : forall i, strs_from i (map PStr titles) = inr titles).
  { induction titles as [|t titles IH]; intros i; simpl; [reflexivity|].
    now rewrite IH. }
  now rewrite H.
Qed.

Lemma parse_canvas_data_keeps_data (self : ResourceID) :
  canvas_data (fst (_parse_canvas_data self)) = canvas_data self.
Proof.
  unfold _parse_canvas_data. destruct (canvas_data self) as [data|] eqn:E;
    simpl; [|exact E].
  destruct data as [|[|]| | | | | |]; simpl; try exact E;
    repeat match goal with
           | |- context [match ?x with inl _ => _ | inr _ => _ end] =>
               destruct x; simpl
           end; exact E.
Qed.

Section Search.
Variable get : string -> list (string * PyVal) -> string -> bool -> PyVal.
Variable repr : PyVal -> string.
Variable indent4 : string -> string.
Variable self : ResourceID.
Variable matches : list PyVal.

Hypothesis remote_answer :
  get (canvas_name (resource_type self))
    [("search_term", name_val (name self))]
    (course_name (course self)) true
  = PList matches.
Hypothesis matches_are_objects : Forall is_json_object matches.

Lemma find_resource_on_canvas_answer :
  find_resource_on_canvas get repr (resource_type self) (course self)
    (name_val (name self))
  = inr (PList matches).
Proof.
  unfold find_resource_on_canvas. rewrite remote_answer. simpl.
  now rewrite (no_errors_among_objects matches matches_are_objects).
Qed.

Lemma find_none :
  matches = [] ->
  _find_canvas_resource get repr indent4 self
  = inl (WaltzNoResourceFound
           ("No " +:+ canvas_name (resource_type self)
            +:+ " resource found for: " +:+ raw self)).
Proof.
  intros Hm. unfold _find_canvas_resource.
  rewrite find_resource_on_canvas_answer. now rewrite Hm.
Qed.

Lemma find_many (titles : list string) :
  (1 < List.length matches)%nat ->
  Forall2 (fun m t => identify_title (resource_type self) m = inr (PStr t))
    matches titles ->
  _find_canvas_resource get repr indent4 self
  = inl (WaltzNoResourceFound
           ("Ambiguous " +:+ canvas_name (resource_type self)
            +:+ " resource ID: " +:+ raw self +:+ nl +:+ "Matches:"
            +:+ nl +:+ indent4 (str_join nl titles))).
Proof.
  intros Hlen Htitles. unfold _find_canvas_resource.
  rewrite find_resource_on_canvas_answer.
  destruct matches as [|m1 [|m2 rest]] eqn:Em; simpl in Hlen; try lia.
  cbn [bind truthy negb py_len ret].
  replace (1 <? List.length (m1 :: m2 :: rest))%nat with true
    by (symmetry; apply Nat.ltb_lt; simpl; lia).
  unfold get_names_from_json, names_from_json. cbn [py_iter bind ret].
  unfold identify_title in Htitles.
  rewrite (mapM_titles _ _ _ Htitles). cbn [bind].
  now rewrite py_join_strs.
Qed.

Lemma find_one (m : PyVal) :
  matches = [m] -> _find_canvas_resource get repr indent4 self = inr m.
Proof.
  intros Hm. unfold _find_canvas_resource.
  rewrite find_resource_on_canvas_answer. now rewrite Hm.
Qed.

Hypothesis search_command : command self = "?".

Lemma get_canvas_data_search :
  _get_canvas_data get repr indent4 self
  = match _find_canvas_resource get repr indent4 self with
    | inl e => (self, inl e)
    | inr data => _parse_canvas_data (set_canvas_data data self)
    end.
Proof. unfold _get_canvas_data. now rewrite search_command. Qed.

(** C1: for an identifier whose command is [?], resolution searches the
    remote by name and wants exactly one match: with no match it raises
    the not-found error naming the remote collection and the raw
    identifier; with several it raises the ambiguity error listing the
    titles of all the matches; with one, that match becomes the
    identifier's remote data. *)
Theorem search_requires_exactly_one_match :
  (matches = [] ->
   _get_canvas_data get repr indent4 self
   = (self,
      inl (WaltzNoResourceFound
             ("No " +:+ canvas_name (resource_type self)
              +:+ " resource found for: " +:+ raw self)))) /\
  (forall titles,
     (1 < List.length matches)%nat ->
     Forall2
       (fun m t => identify_title (resource_type self) m = inr (PStr t))
       matches titles ->
     _get_canvas_data get repr indent4 self
     = (self,
        inl (WaltzNoResourceFound
               ("Ambiguous " +:+ canvas_name (resource_type self)
                +:+ " resource ID: " +:+ raw self +:+ nl +:+ "Matches:"
                +:+ nl +:+ indent4 (str_join nl titles))))) /\
  (forall m,
     matches = [m] ->
     _find_canvas_resource get repr indent4 self = inr m /\
     canvas_data (fst (_get_canvas_data get repr indent4 self)) = Some m).
Proof.
  split; [|split].
  - intros Hm. rewrite get_canvas_data_search. now rewrite (find_none Hm).
  - intros titles Hlen Htitles. rewrite get_canvas_data_search.
    now rewrite (find_many titles Hlen Htitles).
  - intros m Hm. split; [exact (find_one m Hm)|].
    rewrite get_canvas_data_search, (find_one m Hm).
    now rewrite parse_canvas_data_keeps_data.
Qed.
End Search.

Lemma search_requires_exactly_one_match_witness :
  _get_canvas_data
    (fun _ _ _ _ =>
       PList [PDict [("id", PInt 1); ("name", PStr "Homework 1")];
              PDict [("id", PInt 2); ("name", PStr "Homework 2")]])
    (fun _ => "") (fun s => s) search_example
  = (search_example,
     inl (WaltzNoResourceFound
            ("Ambiguous assignments resource ID: assignment/?Homework"
             +:+ nl +:+ "Matches:" +:+ nl
             +:+ "Homework 1" +:+ nl +:+ "Homework 2"))).
Proof.
  assert (Hobjects :
            Forall is_json_object
              [PDict [("id", PInt 1); ("name", PStr "Homework 1")];
               PDict [("id", PInt 2); ("name", PStr "Homework 2")]])
    by (repeat constructor; eexists; reflexivity).
  apply (proj1 (proj2
    (search_requires_exactly_one_match
       (fun _ _ _ _ =>
          PList [PDict [("id", PInt 1); ("name", PStr "Homework 1")];
                 PDict [("id", PInt 2); ("name", PStr "Homework 2")]])
       (fun _ => "") (fun s => s) search_example
       [PDict [("id", PInt 1); ("name", PStr "Homework 1")];
        PDict [("id", PInt 2); ("name", PStr "Homework 2")]]
       eq_refl Hobjects eq_refl))
    ["Homework 1"; "Homework 2"]).
  - simpl. lia.
  - repeat constructor.
Defined.

(** With exactly one match and the title and id fields present, the
    resolution of a search identifier completes. *)
Example search_one_match_resolves :
  _get_canvas_data
    (fun _ _ _ _ => PList [PDict [("id", PInt 1); ("name", PStr "Homework")]])
    (fun _ => "") (fun s => s) search_example
  = (set_canvas_id (PInt 1)
       (set_canvas_title (PStr "Homework")
          (set_canvas_data (PDict [("id", PInt 1); ("name", PStr "Homework")])
             search_example)),
     inr tt).
Proof. reflexivity. Qed.

(** *** Creation *)

Section Create.
Variable get : string -> list (string * PyVal) -> string -> bool -> PyVal.
Variable repr : PyVal -> string.
Variable indent4 : string -> string.
Variable self : ResourceID.
Variable matches : list PyVal.

Hypothesis remote_answer :
  get (canvas_name (resource_type self))
    [("search_term", name_val (name self))]
    (course_name (course self)) true
  = PList matches.
Hypothesis matches_are_objects : Forall is_json_object matches.
Hypothesis create_command : command self = "+".

(** Without a match the identifier is new: the sentinel [True] as data,
    the given name as title, no id. *)
Lemma create_without_match_is_new :
  matches = [] ->
  _get_canvas_data get repr indent4 self
  = (set_canvas_id PNone
       (set_canvas_title (name_val (name self))
          (set_canvas_data (PBool true) self)),
     inr tt).
Proof.
  intros Hm. unfold _get_canvas_data. rewrite create_command.
  change (startswith "+" "+") with true. cbv iota.
  unfold _new_canvas_resource.
  rewrite (find_resource_on_canvas_answer get repr self matches
             remote_answer matches_are_objects).
  now rewrite Hm.
Qed.

(** With matches the look-up of their titles goes through the base class,
    that is through the field [title]: the already-exists error is raised
    when every match has that field. *)
Lemma create_with_match_titles (titles : list string) :
  matches <> [] ->
  Forall2
    (fun m t => identify_field Resource_canvas_title_field m = inr (PStr t))
    matches titles ->
  _get_canvas_data get repr indent4 self
  = (self,
     inl (WaltzException
            ("Resource " +:+ name_str (name self) +:+ " already exists:"
             +:+ nl +:+ indent4 (str_join nl titles)))).
Proof.
  intros Hne Htitles. unfold _get_canvas_data. rewrite create_command.
  change (startswith "+" "+") with true. cbv iota.
  unfold _new_canvas_resource.
  rewrite (find_resource_on_canvas_answer get repr self matches
             remote_answer matches_are_objects).
  destruct matches as [|m rest]; [congruence|].
  cbn [bind truthy negb].
  unfold Resource_get_names_from_json, names_from_json. cbn [py_iter bind ret].
  rewrite (mapM_titles _ _ _ Htitles). cbn [bind].
  now rewrite py_join_strs.
Qed.

(** A first match without the field [title] ends the creation with
    [KeyError], whatever the title field of the variant is. *)
Lemma create_with_untitled_match (kvs : list (string * PyVal))
    (rest : list PyVal) :
  matches = PDict kvs :: rest ->
  dict_get kvs "title" = None ->
  _get_canvas_data get repr indent4 self = (self, inl (KeyError "title")).
Proof.
  intros Hm Hkvs. unfold _get_canvas_data. rewrite create_command.
  change (startswith "+" "+") with true. cbv iota.
  unfold _new_canvas_resource.
  rewrite (find_resource_on_canvas_answer get repr self matches
             remote_answer matches_are_objects).
  rewrite Hm. cbn [bind truthy negb].
  unfold Resource_get_names_from_json, names_from_json. cbn [py_iter bind ret].
  cbn [mapM]. unfold identify_field at 1. cbn [py_getitem].
  unfold dict_getitem, Resource_canvas_title_field. now rewrite Hkvs.
Qed.
End Create.

(** C2 at its failing input: creating an assignment whose name the remote
    already knows.  An assignment object of the remote carries its title
    in [name]; [_new_canvas_resource] asks the base class for the titles,
    which reads [title], and the constructor ends with [KeyError] instead
    of the already-exists error. *)
Theorem create_existing_assignment_raises_KeyError
    (repr : PyVal -> string) (indent4 : string -> string)
    (make_safe_filename : PyVal -> result string)
    (glob : string -> list string) (Quiz : ResourceType)
    (lower_unicode : string -> string) (course_ : Course) :
  ResourceID_init
    (fun _ _ _ _ => PList [PDict [("id", PInt 7); ("name", PStr "Homework 1")]])
    repr indent4 make_safe_filename glob Quiz lower_unicode course_
    "assignment/+Homework 1"
  = inl (KeyError "title").
Proof.
  unfold ResourceID_init.
  destruct (page_and_assignment_registered Quiz) as (_ & _ & Hreg & _).
  change "assignment/+Homework 1"
    with ("assignment" +:+ "/" +:+ String "+" "Homework 1").
  rewrite (parse_command repr Quiz lower_unicode "assignment" "+" "Homework 1" Assignment
             eq_refl Hreg eq_refl eq_refl).
  reflexivity.
Qed.

(** The same request for a page, whose title field is [title], gets the
    already-exists error with the titles of the matches. *)
Example create_existing_page_already_exists
    (repr : PyVal -> string) (indent4 : string -> string)
    (make_safe_filename : PyVal -> result string)
    (glob : string -> list string) (Quiz : ResourceType)
    (lower_unicode : string -> string) (course_ : Course) :
  ResourceID_init
    (fun _ _ _ _ => PList [PDict [("url", PStr "syllabus"); ("title", PStr "Syllabus")]])
    repr indent4 make_safe_filename glob Quiz lower_unicode course_
    "page/+Syllabus"
  = inl (WaltzException
           ("Resource Syllabus already exists:" +:+ nl +:+ indent4 "Syllabus")).
Proof.
  unfold ResourceID_init.
  destruct (page_and_assignment_registered Quiz) as (Hreg & _).
  change "page/+Syllabus" with ("page" +:+ "/" +:+ String "+" "Syllabus").
  rewrite (parse_command repr Quiz lower_unicode "page" "+" "Syllabus" Page
             eq_refl Hreg eq_refl eq_refl).
  reflexivity.
Qed.

(** *** The path on disk *)

Section DiskPath.
Variable glob : string -> list string.
Variable cls : ResourceType.
Variables root filename_ : string.

Lemma find_on_disk_none :
  glob (path_join_all [root; canonical_category cls; "**"; filename_]) = [] ->
  find_resource_on_disk glob cls root filename_
  = inr (true, path_join_all [root; canonical_category cls; filename_]).
Proof. intros H. unfold find_resource_on_disk. now rewrite H. Qed.

Lemma find_on_disk_one (p : string) :
  glob (path_join_all [root; canonical_category cls; "**"; filename_]) = [p] ->
  find_resource_on_disk glob cls root filename_ = inr (false, p).
Proof. intros H. unfold find_resource_on_disk. now rewrite H. Qed.

Lemma find_on_disk_many (p1 p2 : string) (rest : list string) :
  glob (path_join_all [root; canonical_category cls; "**"; filename_])
  = p1 :: p2 :: rest ->
  find_resource_on_disk glob cls root filename_
  = inl (NameError "name 'self' is not defined").
Proof. intros H. unfold find_resource_on_disk. now rewrite H. Qed.
End DiskPath.

(** C4 at its failing input: two files with the same safe name under the
    pages folder.  The search stops with [NameError], raised while the
    message of the intended [ValueError] is being formatted, so no error
    that lists the two paths is raised. *)
Theorem duplicate_on_disk_raises_NameError :
  find_resource_on_disk
    (fun pattern =>
       if String.eqb pattern "cs1/pages/**/Syllabus.md"
       then ["cs1/pages/Syllabus.md"; "cs1/pages/week1/Syllabus.md"]
       else [])
    Page "cs1" "Syllabus.md"
  = inl (NameError "name 'self' is not defined").
Proof. reflexivity. Qed.

(** ** The round trip of an assignment through its disk form *)

(** One step of a successful run: the first call that the model cannot
    evaluate returned a value, which gets a name. *)
Ltac step_in m H :=
  lazymatch m with
  | bind ?m' _ => step_in m' H
  | _ =>
      let E := fresh "E" in
      destruct m eqn:E; [discriminate H|]; cbn [bind] in H
  end.

Ltac step H :=
  match type of H with
  | bind ?m _ = inr _ => step_in m H
  end.

Section RoundTrip.
Variable h2m m2h to_friendly_date from_friendly_date : PyVal -> result PyVal.
Variable course_ : Course.
Variables self on_disk back : PyVal.

Hypothesis to_disk_defined :
  Assignment_to_disk h2m to_friendly_date self = inr on_disk.
Hypothesis from_disk_defined :
  Assignment_from_disk m2h from_friendly_date course_ on_disk = inr back.

(** C3: when [Assignment.to_disk] is defined on an assignment and
    [Assignment.from_disk] is defined on its output, the instance read
    back has the same name, the same url ([html_url]), the same settings
    ([published], [points_possible], [grading_type], [submission_types],
    [anonymize_students], [anonymous_grading]), and each of the three
    timestamps is the original taken through [to_friendly_date] and back
    through [from_friendly_date]. *)
Theorem Assignment_round_trip :
  getattr back "name" = getattr self "name" /\
  getattr back "html_url" = getattr self "html_url" /\
  getattr back "published" = getattr self "published" /\
  getattr back "points_possible" = getattr self "points_possible" /\
  getattr back "grading_type" = getattr self "grading_type" /\
  getattr back "submission_types" = getattr self "submission_types" /\
  getattr back "anonymize_students" = getattr self "anonymize_students" /\
  getattr back "anonymous_grading" = getattr self "anonymous_grading" /\
  getattr back "due_at"
  = (v <- getattr self "due_at" ;;
     v <- to_friendly_date v ;; from_friendly_date v) /\
  getattr back "unlock_at"
  = (v <- getattr self "unlock_at" ;;
     v <- to_friendly_date v ;; from_friendly_date v) /\
  getattr back "lock_at"
  = (v <- getattr self "lock_at" ;;
     v <- to_friendly_date v ;; from_friendly_date v).
Proof.
  pose proof to_disk_defined as Hto. pose proof from_disk_defined as Hfrom.
  unfold Assignment_to_disk in Hto.
  do 5 step Hto.
  destruct (hasattr self "allowed_extensions");
    [destruct (getattr self "allowed_extensions") eqn:Eext;
       [discriminate Hto|]|];
    cbn [bind ret] in Hto;
    repeat step Hto;
    unfold ret in Hto; injection Hto; intros Hdisk; rewrite <- Hdisk in Hfrom;
    unfold Assignment_from_disk, friendly_field, merge_section in Hfrom;
    cbn in Hfrom;
    repeat (step Hfrom; cbn in Hfrom);
    unfold ret in Hfrom; injection Hfrom; intros Hback; rewrite <- Hback;
    cbn;
    repeat match goal with
           | H : _ = inr _ |- _ => rewrite H; cbn [bind]
           end;
    repeat split; reflexivity.
Qed.
End RoundTrip.

Lemma Assignment_round_trip_witness :
  Assignment_to_disk wrap_example wrap_example assignment_example
  = inr assignment_example_on_disk /\
  Assignment_from_disk unwrap_example unwrap_example course_example
    assignment_example_on_disk
  = inr assignment_example_back /\
  getattr assignment_example_back "name"
  = getattr assignment_example "name" /\
  getattr assignment_example_back "html_url"
  = getattr assignment_example "html_url" /\
  getattr assignment_example_back "published"
  = getattr assignment_example "published" /\
  getattr assignment_example_back "points_possible"
  = getattr assignment_example "points_possible" /\
  getattr assignment_example_back "grading_type"
  = getattr assignment_example "grading_type" /\
  getattr assignment_example_back "submission_types"
  = getattr assignment_example "submission_types" /\
  getattr assignment_example_back "anonymize_students"
  = getattr assignment_example "anonymize_students" /\
  getattr assignment_example_back "anonymous_grading"
  = getattr assignment_example "anonymous_grading" /\
  getattr assignment_example_back "due_at"
  = (v <- getattr assignment_example "due_at" ;;
     v <- wrap_example v ;; unwrap_example v) /\
  getattr assignment_example_back "unlock_at"
  = (v <- getattr assignment_example "unlock_at" ;;
     v <- wrap_example v ;; unwrap_example v) /\
  getattr assignment_example_back "lock_at"
  = (v <- getattr assignment_example "lock_at" ;;
     v <- wrap_example v ;; unwrap_example v).
Proof.
  split; [vm_compute; reflexivity|]. split; [vm_compute; reflexivity|].
  apply (Assignment_round_trip wrap_example unwrap_example wrap_example
           unwrap_example course_example assignment_example
           assignment_example_on_disk assignment_example_back);
    vm_compute; reflexivity.
Defined.

(** On the example the dates come back as they were, since its converters
    are inverse to each other. *)
Example Assignment_round_trip_example :
  (d <- Assignment_to_disk wrap_example wrap_example assignment_example ;;
   back <- Assignment_from_disk unwrap_example unwrap_example course_example d ;;
   getattr back "due_at")
  = inr (PStr "2019-09-01T03:59:59Z").
Proof. reflexivity. Qed.

(** ** Backups *)

Lemma files_write_file_ne (p q contents : string) (disk : Disk) :
  q <> p -> files (write_file p contents disk) !! q = files disk !! q.
Proof. intros Hne. unfold write_file. cbn [files]. now apply lookup_insert_ne. Qed.

Lemma files_write_file_eq (p contents : string) (disk : Disk) :
  files (write_file p contents disk) !! p = Some contents.
Proof. unfold write_file. cbn [files]. apply lookup_insert_eq. Qed.

Lemma write_log_write_file (p contents : string) (disk : Disk) :
  List.length (write_log (write_file p contents disk))
  = S (List.length (write_log disk)).
Proof. unfold write_file. cbn [write_log]. rewrite length_app. simpl. lia. Qed.

Section BackupFacts.
Variable gzip_compress : string -> string.
Variable json_dumps : PyVal -> string.
Variable self : Course.
Variable resource_id : ResourceID.
Variables filename_ path_ : string.

Hypothesis filename_set : filename resource_id = Some filename_.
Hypothesis path_set : path resource_id = Some path_.

(** [backup_resource] by cases on the file at the resource's path. *)
Lemma backup_resource_cases (new_version : PyVal) (stamp : string)
    (disk : Disk) :
  backup_resource gzip_compress self resource_id new_version stamp disk
  = match files disk !! path_ with
    | None => (disk, inr false)
    | Some contents =>
        if str_eq_val (universal_newlines contents) new_version
        then (disk, inr false)
        else
          (write_file
             (path_join
                (path_join (backups self)
                   (identify_filename (resource_type resource_id) filename_))
                (stamp +:+ extension (resource_type resource_id) +:+ ".gz"))
             (gzip_compress (universal_newlines contents)) disk,
           inr true)
    end.
Proof.
  unfold backup_resource. rewrite filename_set, path_set.
  cbn [attr ret]. unfold path_exists, read_text, ensure_dir.
  destruct (files disk !! path_) as [contents|]; reflexivity.
Qed.

(** [backup_json] writes whatever the disk holds. *)
Lemma backup_json_always_writes (json_data : PyVal) (stamp : string)
    (disk : Disk) :
  backup_json gzip_compress json_dumps self resource_id json_data stamp disk
  = (write_file
       (path_join
          (path_join (backups self)
             (identify_filename (resource_type resource_id) filename_))
          (stamp +:+ ".json" +:+ ".gz"))
       (gzip_compress (json_dumps json_data)) disk,
     inr tt).
Proof. unfold backup_json. now rewrite filename_set. Qed.
End BackupFacts.

(** C7, as amended: [backup_resource] leaves the file at the resource's
    path alone, so two calls in succession with the same new content have
    the same outcome.  When the file exists and its text differs from the
    new content, both calls return true and each writes the compressed
    old text at its own backup path, two writes in all; when the file is
    missing or its text is the new content, both calls return false and
    the disk is as it was.  A call is the no-op that returns false once
    the new text is what the file holds. *)
Theorem backup_resource_twice_same_outcome
    (gzip_compress : string -> string) (self : Course)
    (resource_id : ResourceID) (filename_ path_ : string)
    (new_version : PyVal) (stamp1 stamp2 : string) (disk : Disk) :
  filename resource_id = Some filename_ ->
  path resource_id = Some path_ ->
  path_
  <> path_join
       (path_join (backups self)
          (identify_filename (resource_type resource_id) filename_))
       (stamp1 +:+ extension (resource_type resource_id) +:+ ".gz") ->
  let backup_path := fun stamp : string =>
    path_join
      (path_join (backups self)
         (identify_filename (resource_type resource_id) filename_))
      (stamp +:+ extension (resource_type resource_id) +:+ ".gz") in
  let first :=
    backup_resource gzip_compress self resource_id new_version stamp1 disk in
  let second :=
    backup_resource gzip_compress self resource_id new_version stamp2
      (fst first) in
  snd second = snd first /\
  (forall old,
     files disk !! path_ = Some old ->
     str_eq_val (universal_newlines old) new_version = false ->
     snd first = inr true /\
     snd second = inr true /\
     fst second
     = write_file (backup_path stamp2) (gzip_compress (universal_newlines old))
         (write_file (backup_path stamp1)
            (gzip_compress (universal_newlines old)) disk) /\
     write_log (fst second)
     = (write_log disk
        ++ [(backup_path stamp1, gzip_compress (universal_newlines old));
            (backup_path stamp2, gzip_compress (universal_newlines old))])%list) /\
  ((files disk !! path_ = None \/
    exists old,
      files disk !! path_ = Some old /\
      str_eq_val (universal_newlines old) new_version = true) ->
   snd first = inr false /\ snd second = inr false /\ fst second = disk) /\
  (forall text stamp,
     universal_newlines text = text ->
     backup_resource gzip_compress self resource_id (PStr text) stamp
       (write_file path_ text disk)
     = (write_file path_ text disk, inr false)).
Proof.
  intros Hf Hp Hne backup_path first second. subst first second.
  rewrite !(backup_resource_cases gzip_compress self resource_id
              filename_ path_ Hf Hp).
  fold (backup_path stamp1). fold (backup_path stamp2).
  fold (backup_path stamp1) in Hne.
  split; [|split; [|split]].
  - destruct (files disk !! path_) as [contents|] eqn:E; cbn [fst snd].
    + destruct (str_eq_val (universal_newlines contents) new_version) eqn:Eq;
        cbn [fst snd].
      * now rewrite E, Eq.
      * rewrite files_write_file_ne by exact Hne. now rewrite E, Eq.
    + now rewrite E.
  - intros old E Eq. rewrite E, Eq. cbn [fst snd].
    rewrite files_write_file_ne by exact Hne. rewrite E, Eq. cbn [fst snd].
    repeat split.
    unfold write_file. cbn [write_log]. now rewrite <- List.app_assoc.
  - intros [E|(old & E & Eq)].
    + rewrite E. cbn [fst snd]. now rewrite E.
    + rewrite E, Eq. cbn [fst snd]. now rewrite E, Eq.
  - intros text stamp Htext.
    rewrite (backup_resource_cases gzip_compress self resource_id
               filename_ path_ Hf Hp).
    rewrite files_write_file_eq.
    unfold str_eq_val, is_str. rewrite Htext. now rewrite String.eqb_refl.
Qed.

(** The witness: the page on disk holds [old text], which differs from
    the new text, and both calls back it up. *)
Lemma backup_resource_twice_same_outcome_witness :
  let first :=
    backup_resource gzip_example course_example page_id_example
      (PStr "new text") "2019-09-01-10-00-00" disk_example in
  let second :=
    backup_resource gzip_example course_example page_id_example
      (PStr "new text") "2019-09-01-10-00-01" (fst first) in
  snd first = inr true /\
  snd second = inr true /\
  fst second
  = write_file "cs1/_backups/pages/Syllabus.md/2019-09-01-10-00-01.md.gz"
      "gz:old text"
      (write_file "cs1/_backups/pages/Syllabus.md/2019-09-01-10-00-00.md.gz"
         "gz:old text" disk_example) /\
  write_log (fst second)
  = (write_log disk_example
     ++ [("cs1/_backups/pages/Syllabus.md/2019-09-01-10-00-00.md.gz",
          "gz:old text");
         ("cs1/_backups/pages/Syllabus.md/2019-09-01-10-00-01.md.gz",
          "gz:old text")])%list.
Proof.
  assert (Hne : "cs1/pages/Syllabus.md"
                <> path_join
                     (path_join (backups course_example)
                        (identify_filename (resource_type page_id_example)
                           "Syllabus.md"))
                     ("2019-09-01-10-00-00"
                      +:+ extension (resource_type page_id_example)
                      +:+ ".gz"))
    by (vm_compute; discriminate).
  exact (proj1 (proj2
           (backup_resource_twice_same_outcome gzip_example course_example
              page_id_example "Syllabus.md" "cs1/pages/Syllabus.md"
              (PStr "new text") "2019-09-01-10-00-00" "2019-09-01-10-00-01"
              disk_example eq_refl eq_refl Hne))
           "old text" eq_refl eq_refl).
Defined.

(** C7, as stated, fails: the page on disk differs from the new text, and
    the second of two calls in succession writes a second backup and
    returns true. *)
Lemma backup_resource_twice_counterexample :
  let first :=
    backup_resource gzip_example course_example page_id_example
      (PStr "new text") "2019-09-01-10-00-00" disk_example in
  let second :=
    backup_resource gzip_example course_example page_id_example
      (PStr "new text") "2019-09-01-10-00-01" (fst first) in
  snd first = inr true /\
  snd second = inr true /\
  write_log (fst second)
  = [("cs1/_backups/pages/Syllabus.md/2019-09-01-10-00-00.md.gz",
      "gz:old text");
     ("cs1/_backups/pages/Syllabus.md/2019-09-01-10-00-01.md.gz",
      "gz:old text")].
Proof. vm_compute. repeat split. Qed.

(** [Course.to_disk] writes the new text after the backup: for a resource
    kept as text, a further backup of the same text is then the no-op
    that returns false. *)
Lemma to_disk_text_then_backup_is_noop
    (gzip_compress : string -> string) (yaml_dump : PyVal -> string)
    (self : Course) (resource_id : ResourceID)
    (resource_to_disk : ResourceID -> result PyVal)
    (filename_ path_ text : string) (stamp1 stamp2 : string) (disk : Disk) :
  filename resource_id = Some filename_ ->
  path resource_id = Some path_ ->
  endswith path_ ".yaml" = false ->
  resource_to_disk resource_id = inr (PStr text) ->
  universal_newlines text = text ->
  let written :=
    Course_to_disk gzip_compress yaml_dump self resource_id resource_to_disk
      stamp1 disk in
  snd written = inr tt /\
  backup_resource gzip_compress self resource_id (PStr text) stamp2
    (fst written)
  = (fst written, inr false).
Proof.
  intros Hf Hp Hyaml Hdata Htext written. subst written.
  unfold Course_to_disk. rewrite Hdata.
  rewrite (backup_resource_cases gzip_compress self resource_id
             filename_ path_ Hf Hp).
  assert (Hnoop : forall d,
             backup_resource gzip_compress self resource_id (PStr text) stamp2
               (write_file path_ text d)
             = (write_file path_ text d, inr false)).
  { intros d.
    rewrite (backup_resource_cases gzip_compress self resource_id
               filename_ path_ Hf Hp).
    rewrite files_write_file_eq. unfold str_eq_val, is_str.
    rewrite Htext. now rewrite String.eqb_refl. }
  destruct (files disk !! path_) as [contents|];
    [destruct (str_eq_val (universal_newlines contents) (PStr text))|];
    rewrite Hp; cbn [attr ret]; rewrite Hyaml; unfold ensure_dir;
    cbn [fst snd]; (split; [reflexivity|apply Hnoop]).
Qed.

(** For a resource kept as YAML the new version is a mapping, which no
    file text equals: each [Course.to_disk] of an existing file writes a
    backup, also when nothing changed. *)
Lemma backup_resource_mapping_always_differs
    (gzip_compress : string -> string) (self : Course)
    (resource_id : ResourceID) (filename_ path_ contents : string)
    (kvs : list (string * PyVal)) (stamp : string) (disk : Disk) :
  filename resource_id = Some filename_ ->
  path resource_id = Some path_ ->
  files disk !! path_ = Some contents ->
  snd (backup_resource gzip_compress self resource_id (PDict kvs) stamp disk)
  = inr true.
Proof.
  intros Hf Hp Hc.
  rewrite (backup_resource_cases gzip_compress self resource_id
             filename_ path_ Hf Hp).
  now rewrite Hc.
Qed.

(** C8, as amended: [backup_json] compares nothing; every call writes
    one gzip-compressed, timestamped dump of the JSON under the backup
    folder of the resource, whatever the disk holds. *)
Theorem backup_json_writes_unconditionally
    (gzip_compress : string -> string) (json_dumps : PyVal -> string)
    (self : Course) (resource_id : ResourceID) (filename_ : string)
    (json_data : PyVal) (stamp : string) (disk : Disk) :
  filename resource_id = Some filename_ ->
  let after :=
    backup_json gzip_compress json_dumps self resource_id json_data stamp
      disk in
  snd after = inr tt /\
  write_log (fst after)
  = (write_log disk
     ++ [(path_join
            (path_join (backups self)
               (identify_filename (resource_type resource_id) filename_))
            (stamp +:+ ".json" +:+ ".gz"),
          gzip_compress (json_dumps json_data))])%list.
Proof.
  intros Hf after. subst after.
  rewrite (backup_json_always_writes gzip_compress json_dumps self
             resource_id filename_ Hf).
  split; reflexivity.
Qed.

Lemma backup_json_writes_unconditionally_witness :
  let after :=
    backup_json gzip_example json_example course_example page_id_example
      (PStr "old text") "2019-09-01-10-00-00" disk_example in
  snd after = inr tt /\
  write_log (fst after)
  = (write_log disk_example
     ++ [(path_join
            (path_join (backups course_example)
               (identify_filename (resource_type page_id_example)
                  "Syllabus.md"))
            ("2019-09-01-10-00-00" +:+ ".json" +:+ ".gz"),
          gzip_example (json_example (PStr "old text")))])%list.
Proof.
  apply (backup_json_writes_unconditionally gzip_example json_example
           course_example page_id_example "Syllabus.md" (PStr "old text")
           "2019-09-01-10-00-00" disk_example).
  reflexivity.
Defined.

(** C8, as stated, fails: the JSON to back up prints to the very text of
    the file on disk, and a first backup of it is already there; the call
    writes a backup all the same. *)
Lemma backup_json_counterexample :
  json_example (PStr "old text") = "old text" /\
  files disk_example !! "cs1/pages/Syllabus.md" = Some "old text" /\
  let first :=
    backup_json gzip_example json_example course_example page_id_example
      (PStr "old text") "2019-09-01-10-00-00" disk_example in
  let second :=
    backup_json gzip_example json_example course_example page_id_example
      (PStr "old text") "2019-09-01-10-00-01" (fst first) in
  write_log (fst second)
  = [("cs1/_backups/pages/Syllabus.md/2019-09-01-10-00-00.json.gz",
      "gz:old text");
     ("cs1/_backups/pages/Syllabus.md/2019-09-01-10-00-01.json.gz",
      "gz:old text")].
Proof. vm_compute. repeat split. Qed.

(** ** The outcome filter *)

Section OutcomeFacts.
Variable glob : string -> list string.
Variable yaml_load : string -> result PyVal.
Variable disk : Disk.
Variable course_ : Course.

Lemma dict_mem_set_same {V} (d : list (string * V)) (k : string) (v : V) :
  dict_mem k (dict_set d k v) = true.
Proof. unfold dict_mem. now rewrite dict_get_set_eq. Qed.

(** A bank that was stored leaves the course in the cache. *)
Lemma store_outcomes_keeps_course (bank : string)
    (items : list (string * PyVal))
    (CACHE CACHE' : list (string * list (string * PyVal))) (r : result unit) :
  dict_mem (course_name course_) CACHE = true ->
  store_outcomes course_ bank items CACHE = (CACHE', r) ->
  dict_mem (course_name course_) CACHE' = true.
Proof.
  revert CACHE. induction items as [|[name_ outcome] items IH];
    intros CACHE Hmem Hrun; simpl in Hrun.
  - now injection Hrun as <- _.
  - match type of Hrun with
    | match ?m with inl _ => _ | inr _ => _ end = _ => destruct m eqn:E
    end.
    + now injection Hrun as <- _.
    + apply (IH l); [|exact Hrun].
      revert E. unfold bind.
      repeat match goal with
             | |- match ?m with inl _ => _ | inr _ => _ end = _ -> _ =>
                 destruct m; [discriminate|]
             end.
      unfold ret. intros [= <-]. apply dict_mem_set_same.
Qed.

Lemma load_banks_keeps_course (banks : list string)
    (CACHE CACHE' : list (string * list (string * PyVal))) (r : result unit) :
  dict_mem (course_name course_) CACHE = true ->
  load_banks yaml_load disk course_ banks CACHE = (CACHE', r) ->
  dict_mem (course_name course_) CACHE' = true.
Proof.
  revert CACHE. induction banks as [|bank banks IH];
    intros CACHE Hmem Hrun; simpl in Hrun.
  - now injection Hrun as <- _.
  - match type of Hrun with
    | match ?m with inl _ => _ | inr _ => _ end = _ => destruct m eqn:E
    end.
    + now injection Hrun as <- _.
    + destruct (store_outcomes course_ bank l CACHE) as [C1 r1] eqn:Es.
      pose proof (store_outcomes_keeps_course bank l CACHE C1 r1 Hmem Es)
        as Hmem1.
      destruct r1.
      * now injection Hrun as <- _.
      * exact (IH C1 Hmem1 Hrun).
Qed.

(** After the first statement of the filter the course is in the cache,
    whether the load ended well or not. *)
Lemma ensure_loaded_has_course
    (CACHE CACHE' : list (string * list (string * PyVal))) (r : result unit) :
  ensure_loaded glob yaml_load disk course_ CACHE = (CACHE', r) ->
  dict_mem (course_name course_) CACHE' = true.
Proof.
  unfold ensure_loaded.
  destruct (dict_mem (course_name course_) CACHE) eqn:Hmem; cbn [negb].
  - now intros [= <- _].
  - unfold load_all. apply load_banks_keeps_course, dict_mem_set_same.
Qed.

(** C10: when the cache of the course, loaded by this call or before it,
    has no outcome of the given name, the filter returns the name itself. *)
Theorem load_outcome_by_name_returns_name_when_absent
    (outcome_name : string)
    (CACHE CACHE' : list (string * list (string * PyVal))) :
  ensure_loaded glob yaml_load disk course_ CACHE = (CACHE', inr tt) ->
  (forall entries,
     dict_get CACHE' (course_name course_) = Some entries ->
     dict_get entries outcome_name = None) ->
  load_outcome_by_name glob yaml_load disk course_ outcome_name CACHE
  = (CACHE', inr (PStr outcome_name)).
Proof.
  intros Hload Habsent. unfold load_outcome_by_name. rewrite Hload.
  pose proof (ensure_loaded_has_course CACHE CACHE' _ Hload) as Hmem.
  unfold dict_mem in Hmem. unfold dict_getitem.
  destruct (dict_get CACHE' (course_name course_)) as [entries|] eqn:E;
    [|discriminate].
  cbn [ret]. unfold dict_get_default. now rewrite (Habsent entries eq_refl).
Qed.
End OutcomeFacts.

Lemma load_outcome_by_name_returns_name_when_absent_witness :
  load_outcome_by_name outcome_glob_example outcome_yaml_example
    outcome_disk_example course_example "Recursion" []
  = (outcome_cache_example, inr (PStr "Recursion")).
Proof.
  apply (load_outcome_by_name_returns_name_when_absent outcome_glob_example
           outcome_yaml_example outcome_disk_example course_example
           "Recursion" [] outcome_cache_example).
  - vm_compute. reflexivity.
  - intros entries H. vm_compute in H. injection H as <-. reflexivity.
Defined.

(** An outcome that is in the cache is returned as the cached object. *)
Example load_outcome_by_name_found :
  snd (load_outcome_by_name outcome_glob_example outcome_yaml_example
         outcome_disk_example course_example "Loops" [])
  = inr (PObject "Outcome"
           [("body", PStr "Write loops");
            ("course", PCourse course_example);
            ("unmatched_parameters", PDict []);
            ("bank_source", PStr "cs1/outcomes")]).
Proof. vm_compute. reflexivity. Qed.

(** * Further properties *)

(** ** The grammar of identifiers *)

Lemma split_slash_once_none (s : string) :
  str_contains "/" s = false -> split_slash_once s = [s].
Proof.
  induction s as [|c s IH]; intros H.
  - reflexivity.
  - change (str_contains "/" (String c s))
      with (String.prefix "/" (String c s) || str_contains "/" s) in H.
    rewrite prefix_slash in H. apply orb_false_elim in H as [Hc Hrest].
    simpl. rewrite Hc. now rewrite (IH Hrest).
Qed.

Lemma prefix_single (d c : ascii) (s : string) :
  String.prefix (String d "") (String c s) = Ascii.eqb c d.
Proof.
  cbn [String.prefix]. destruct (ascii_dec d c) as [<-|Hne].
  - rewrite Ascii.eqb_refl. now destruct s.
  - symmetry. apply Ascii.eqb_neq. congruence.
Qed.

(** An identifier is cut at its first slash only: the category is
    matched in lower case, a remainder that is exactly [*] gives the
    command [*] without a name, and any other non-empty remainder gives
    its first character as command and all the characters after it,
    later slashes included, as name; an ASCII first character is one
    byte, and the name is what follows that byte. *)
Theorem parse_type_grammar (repr : PyVal -> string) (Quiz : ResourceType)
    (lower_unicode : string -> string)
    (cat : string) (rt : ResourceType) :
  str_contains "/" cat = false ->
  dict_get (RESOURCE_CATEGORIES Quiz) (py_lower lower_unicode cat) = Some rt ->
  _parse_type repr Quiz lower_unicode (cat +:+ "/" +:+ "*")
  = inr (py_lower lower_unicode cat, "*", None, rt) /\
  (forall c nm,
     String.eqb (String c nm) "*" = false ->
     _parse_type repr Quiz lower_unicode (cat +:+ "/" +:+ String c nm)
     = inr (py_lower lower_unicode cat, str_head (String c nm),
            Some (str_tail (String c nm)), rt)) /\
  (forall c nm,
     String.eqb (String c nm) "*" = false ->
     (nat_of_ascii c < 128)%nat ->
     _parse_type repr Quiz lower_unicode (cat +:+ "/" +:+ String c nm)
     = inr (py_lower lower_unicode cat, String c "", Some nm, rt)).
Proof.
  intros Hcat Hreg. split; [|split].
  - exact (parse_wildcard repr Quiz lower_unicode cat rt Hcat Hreg).
  - intros c nm Hstar.
    exact (parse_any_command repr Quiz lower_unicode cat c nm rt Hcat Hreg
             Hstar).
  - intros c nm Hstar Hc.
    apply (parse_command repr Quiz lower_unicode cat c nm rt Hcat Hreg Hstar).
    unfold utf8_width.
    assert (H : (nat_of_ascii c <? 192)%nat = true) by (apply Nat.ltb_lt; lia).
    now rewrite H.
Qed.

(** The witness parses [PAGES/] followed by a two-byte character (bytes
    195 and 169, an accented e) and [mile/1]. *)
Lemma parse_type_grammar_witness :
  _parse_type (fun _ => "") Quiz_example (fun s => s)
    ("PAGES" +:+ "/"
     +:+ String (ascii_of_nat 195) (String (ascii_of_nat 169) "mile/1"))
  = inr ("pages", String (ascii_of_nat 195) (String (ascii_of_nat 169) ""),
         Some "mile/1", Page).
Proof.
  apply (proj1 (proj2
           (parse_type_grammar (fun _ => "") Quiz_example (fun s => s)
              "PAGES" Page eq_refl eq_refl))
           (ascii_of_nat 195) (String (ascii_of_nat 169) "mile/1")).
  reflexivity.
Defined.

(** A raw identifier without a slash is refused by the unpacking of the
    split, with [ValueError], before any category is looked up. *)
Theorem parse_type_without_slash (repr : PyVal -> string)
    (Quiz : ResourceType)
    (lower_unicode : string -> string) (raw_ : string) :
  str_contains "/" raw_ = false ->
  _parse_type repr Quiz lower_unicode raw_
  = inl (ValueError "not enough values to unpack (expected 2, got 1)").
Proof.
  intros H. unfold _parse_type. now rewrite (split_slash_once_none raw_ H).
Qed.

Lemma parse_type_without_slash_witness :
  _parse_type (fun _ => "") Quiz_example (fun s => s) "assignment"
  = inl (ValueError "not enough values to unpack (expected 2, got 1)").
Proof.
  apply (parse_type_without_slash (fun _ => "") Quiz_example (fun s => s)
           "assignment").
  reflexivity.
Defined.

(** The category is checked first: with a category that is not
    registered the unknown-category error is raised whatever follows the
    slash, an empty or malformed remainder included. *)
Theorem parse_type_unknown_category (repr : PyVal -> string)
    (Quiz : ResourceType)
    (lower_unicode : string -> string) (cat action : string) :
  str_contains "/" cat = false ->
  dict_get (RESOURCE_CATEGORIES Quiz) (py_lower lower_unicode cat) = None ->
  _parse_type repr Quiz lower_unicode (cat +:+ "/" +:+ action)
  = inl (WaltzException
           ("Category " +:+ py_lower lower_unicode cat
            +:+ " not found (full Resource ID: "
            +:+ repr (PStr (cat +:+ "/" +:+ action)) +:+ ")")).
Proof.
  intros Hcat Hreg. unfold _parse_type.
  rewrite (split_slash_once_no_slash cat action Hcat).
  cbv beta iota zeta. now rewrite Hreg.
Qed.

Lemma parse_type_unknown_category_witness :
  _parse_type (fun _ => "'bogus/'") Quiz_example (fun s => s) ("bogus" +:+ "/" +:+ "")
  = inl (WaltzException
           ("Category " +:+ py_lower (fun s => s) "bogus"
            +:+ " not found (full Resource ID: " +:+ "'bogus/'" +:+ ")")).
Proof.
  apply (parse_type_unknown_category (fun _ => "'bogus/'") Quiz_example
           (fun s => s) "bogus" ""); reflexivity.
Defined.

(** A registered category followed by a slash and nothing else is
    refused with [IndexError]: the command character is read from an
    empty remainder. *)
Theorem parse_type_empty_remainder (repr : PyVal -> string)
    (Quiz : ResourceType)
    (lower_unicode : string -> string) (cat : string) (rt : ResourceType) :
  str_contains "/" cat = false ->
  dict_get (RESOURCE_CATEGORIES Quiz) (py_lower lower_unicode cat) = Some rt ->
  _parse_type repr Quiz lower_unicode (cat +:+ "/")
  = inl (IndexError "string index out of range").
Proof.
  intros Hcat Hreg. unfold _parse_type.
  change (cat +:+ "/") with (cat +:+ "/" +:+ "").
  rewrite (split_slash_once_no_slash cat "" Hcat).
  cbv beta iota zeta. now rewrite Hreg.
Qed.

Lemma parse_type_empty_remainder_witness :
  _parse_type (fun _ => "") Quiz_example (fun s => s) ("a" +:+ "/")
  = inl (IndexError "string index out of range").
Proof.
  apply (parse_type_empty_remainder (fun _ => "") Quiz_example (fun s => s)
           "a" Assignment);
    reflexivity.
Defined.

(** ** Commands *)

(** A remainder whose first character is none of [+], [?] and [:] ends
    the construction with the unknown-command error, which quotes that
    character, without a remote request and without a look at the
    disk. *)
Theorem unknown_command_rejected
    (get : string -> list (string * PyVal) -> string -> bool -> PyVal)
    (repr : PyVal -> string) (indent4 : string -> string)
    (make_safe_filename : PyVal -> result string)
    (glob : string -> list string) (Quiz : ResourceType)
    (lower_unicode : string -> string)
    (course_ : Course) (cat : string) (c : ascii) (nm : string)
    (rt : ResourceType) :
  str_contains "/" cat = false ->
  dict_get (RESOURCE_CATEGORIES Quiz) (py_lower lower_unicode cat) = Some rt ->
  String.eqb (String c nm) "*" = false ->
  c <> "+"%char -> c <> "?"%char -> c <> ":"%char ->
  ResourceID_init get repr indent4 make_safe_filename glob Quiz lower_unicode
    course_ (cat +:+ "/" +:+ String c nm)
  = inl (WaltzException
           ("Unknown command: " +:+ repr (PStr (str_head (String c nm))))).
Proof.
  intros Hcat Hreg Hstar Hplus Hquest Hcolon.
  unfold ResourceID_init.
  rewrite (parse_any_command repr Quiz lower_unicode cat c nm rt Hcat Hreg
             Hstar).
  cbn [bind]. unfold _get_canvas_data. cbn [command]. unfold startswith.
  cbn [str_head]. rewrite !prefix_single.
  apply Ascii.eqb_neq in Hplus, Hquest, Hcolon.
  now rewrite Hplus, Hquest, Hcolon.
Qed.

(** The witness is [page/] followed by a two-byte character (bytes 195
    and 156, a capital U with diaeresis) and [bung]; the stand-in for
    [repr] puts its argument between quotes. *)
Lemma unknown_command_rejected_witness :
  ResourceID_init (fun _ _ _ _ => PList []) quote_example (fun s => s)
    (fun _ => inr "x") (fun _ => []) Quiz_example (fun s => s) course_example
    ("page" +:+ "/"
     +:+ String (ascii_of_nat 195) (String (ascii_of_nat 156) "bung"))
  = inl (WaltzException
           ("Unknown command: " +:+ "'"
            +:+ String (ascii_of_nat 195) (String (ascii_of_nat 156) "")
            +:+ "'")).
Proof.
  apply (unknown_command_rejected (fun _ _ _ _ => PList []) quote_example
           (fun s => s) (fun _ => inr "x") (fun _ => []) Quiz_example
           (fun s => s) course_example "page" (ascii_of_nat 195)
           (String (ascii_of_nat 156) "bung") Page);
    try reflexivity; discriminate.
Defined.

(** ** Resolution against the remote *)

(** A direct fetch asks for the collection's object named by the
    identifier: an answer with an [errors] key is the not-found error, and
    any other answer with the variant's title and id fields becomes the
    remote data, title and id of the identifier. *)
Theorem direct_fetch_resolves
    (get : string -> list (string * PyVal) -> string -> bool -> PyVal)
    (repr : PyVal -> string) (indent4 : string -> string)
    (self : ResourceID) (nm : string) (kvs : list (string * PyVal)) :
  command self = ":" ->
  name self = Some nm ->
  get (canvas_name (resource_type self) +:+ "/" +:+ nm) []
    (course_name (course self)) false
  = PDict kvs ->
  (dict_mem "errors" kvs = true ->
   _get_canvas_data get repr indent4 self
   = (self,
      inl (WaltzNoResourceFound
             ("Errors in Canvas data: " +:+ repr (PDict kvs))))) /\
  (dict_mem "errors" kvs = false ->
   forall t i,
     dict_get kvs (canvas_title_field (resource_type self)) = Some t ->
     dict_get kvs (canvas_id_field (resource_type self)) = Some i ->
     _get_canvas_data get repr indent4 self
     = (set_canvas_id i
          (set_canvas_title t (set_canvas_data (PDict kvs) self)),
        inr tt)).
Proof.
  intros Hcmd Hname Hget.
  assert (Hstep :
            _get_canvas_data get repr indent4 self
            = match _get_canvas_resource get repr self with
              | inl e => (self, inl e)
              | inr data => _parse_canvas_data (set_canvas_data data self)
              end).
  { unfold _get_canvas_data. now rewrite Hcmd. }
  rewrite Hstep. unfold _get_canvas_resource, get_resource_on_canvas.
  rewrite Hname. cbn [name_str]. rewrite Hget. cbn [py_contains bind ret].
  split; intros Herr; rewrite Herr.
  - reflexivity.
  - intros t i Ht Hi. unfold _parse_canvas_data.
    cbn [set_canvas_data canvas_data attr ret resource_type].
    unfold identify_title, identify_id, identify_field.
    cbn [py_getitem]. unfold dict_getitem. now rewrite Ht, Hi.
Qed.

Lemma direct_fetch_resolves_witness :
  (dict_mem "errors" [("url", PStr "syllabus"); ("title", PStr "Syllabus")]
   = true ->
   _get_canvas_data
     (fun _ _ _ _ => PDict [("url", PStr "syllabus"); ("title", PStr "Syllabus")])
     (fun _ => "") (fun s => s) direct_example
   = (direct_example,
      inl (WaltzNoResourceFound ("Errors in Canvas data: " +:+ "")))) /\
  (dict_mem "errors" [("url", PStr "syllabus"); ("title", PStr "Syllabus")]
   = false ->
   forall t i,
     dict_get [("url", PStr "syllabus"); ("title", PStr "Syllabus")]
       (canvas_title_field (resource_type direct_example)) = Some t ->
     dict_get [("url", PStr "syllabus"); ("title", PStr "Syllabus")]
       (canvas_id_field (resource_type direct_example)) = Some i ->
     _get_canvas_data
       (fun _ _ _ _ =>
          PDict [("url", PStr "syllabus"); ("title", PStr "Syllabus")])
       (fun _ => "") (fun s => s) direct_example
     = (set_canvas_id i
          (set_canvas_title t
             (set_canvas_data
                (PDict [("url", PStr "syllabus"); ("title", PStr "Syllabus")])
                direct_example)),
        inr tt)).
Proof.
  apply (direct_fetch_resolves
           (fun _ _ _ _ =>
              PDict [("url", PStr "syllabus"); ("title", PStr "Syllabus")])
           (fun _ => "") (fun s => s) direct_example "syllabus"
           [("url", PStr "syllabus"); ("title", PStr "Syllabus")]);
    reflexivity.
Defined.

(** When the answer to the search by name reports errors, creation and
    search both stop with the general error that quotes the answer: a
    failing remote is told apart from an empty search. *)
Theorem remote_errors_abort_search_and_create
    (get : string -> list (string * PyVal) -> string -> bool -> PyVal)
    (repr : PyVal -> string) (indent4 : string -> string)
    (self : ResourceID) (answer : PyVal) :
  command self = "+" \/ command self = "?" ->
  get (canvas_name (resource_type self))
    [("search_term", name_val (name self))]
    (course_name (course self)) true
  = answer ->
  py_contains "errors" answer = inr true ->
  _get_canvas_data get repr indent4 self
  = (self, inl (WaltzException ("Errors in Canvas data: " +:+ repr answer))).
Proof.
  intros Hcmd Hget Herr.
  assert (Hfind :
            find_resource_on_canvas get repr (resource_type self)
              (course self) (name_val (name self))
            = inl (WaltzException
                     ("Errors in Canvas data: " +:+ repr answer))).
  { unfold find_resource_on_canvas. rewrite Hget, Herr. reflexivity. }
  unfold _get_canvas_data.
  destruct Hcmd as [-> | ->].
  - change (startswith "+" "+") with true. cbv iota.
    unfold _new_canvas_resource. now rewrite Hfind.
  - change (startswith "?" "+") with false.
    change (startswith "?" "?") with true. cbv iota.
    unfold _find_canvas_resource. now rewrite Hfind.
Qed.

Lemma remote_errors_abort_search_and_create_witness :
  _get_canvas_data
    (fun _ _ _ _ => PDict [("errors", PList [PStr "unauthorized"])])
    (fun _ => "{...}") (fun s => s) search_example
  = (search_example,
     inl (WaltzException ("Errors in Canvas data: " +:+ "{...}"))).
Proof.
  apply (remote_errors_abort_search_and_create
           (fun _ _ _ _ => PDict [("errors", PList [PStr "unauthorized"])])
           (fun _ => "{...}") (fun s => s) search_example
           (PDict [("errors", PList [PStr "unauthorized"])]));
    [right; reflexivity | reflexivity | reflexivity].
Defined.

(** ** Construction as a whole *)

Lemma parse_canvas_data_dict (self : ResourceID)
    (kvs : list (string * PyVal)) (t i : PyVal) :
  canvas_data self = Some (PDict kvs) ->
  dict_get kvs (canvas_title_field (resource_type self)) = Some t ->
  dict_get kvs (canvas_id_field (resource_type self)) = Some i ->
  _parse_canvas_data self
  = (set_canvas_id i (set_canvas_title t self), inr tt).
Proof.
  intros Hdata Ht Hi. unfold _parse_canvas_data. rewrite Hdata.
  cbn [attr ret]. unfold identify_title, identify_id, identify_field.
  cbn [py_getitem]. unfold dict_getitem. now rewrite Ht, Hi.
Qed.

Lemma get_disk_path_found (make_safe_filename : PyVal -> result string)
    (glob : string -> list string) (self : ResourceID) (t : PyVal)
    (safe : string) (hits : list string) :
  canvas_title self = Some t ->
  make_safe_filename t = inr safe ->
  glob (path_join_all [root_directory (course self);
                       canonical_category (resource_type self); "**";
                       safe +:+ extension (resource_type self)])
  = hits ->
  (List.length hits <= 1)%nat ->
  _get_disk_path make_safe_filename glob self
  = (set_disk (match hits with [] => true | _ => false end)
       (match hits with
        | [] =>
            path_join_all [root_directory (course self);
                           canonical_category (resource_type self);
                           safe +:+ extension (resource_type self)]
        | p :: _ => p
        end)
       (set_filename (safe +:+ extension (resource_type self)) self),
     inr tt).
Proof.
  intros Ht Hsafe Hglob Hlen. unfold _get_disk_path. rewrite Ht.
  cbn [attr ret bind]. rewrite Hsafe. cbn [bind ret].
  unfold find_resource_on_disk. rewrite Hglob.
  destruct hits as [|p [|p' rest]]; [reflexivity|reflexivity|].
  simpl in Hlen. lia.
Qed.

(** A search identifier with exactly one remote match is constructed in
    full: the match is the remote data, its title and id fields are the
    canonical title and the remote id, the file name is the safe title
    with the variant's extension, and with at most one file of that name
    under the variant's folder the path is that file, or, when there is
    none, the name directly under the folder, marked as new on disk. *)
Theorem search_identifier_constructed
    (get : string -> list (string * PyVal) -> string -> bool -> PyVal)
    (repr : PyVal -> string) (indent4 : string -> string)
    (make_safe_filename : PyVal -> result string)
    (glob : string -> list string) (Quiz : ResourceType)
    (lower_unicode : string -> string)
    (course_ : Course) (cat nm safe : string) (rt : ResourceType)
    (kvs : list (string * PyVal)) (t i : PyVal) (hits : list string) :
  str_contains "/" cat = false ->
  dict_get (RESOURCE_CATEGORIES Quiz) (py_lower lower_unicode cat) = Some rt ->
  get (canvas_name rt) [("search_term", PStr nm)] (course_name course_) true
  = PList [PDict kvs] ->
  dict_get kvs (canvas_title_field rt) = Some t ->
  dict_get kvs (canvas_id_field rt) = Some i ->
  make_safe_filename t = inr safe ->
  glob (path_join_all [root_directory course_; canonical_category rt; "**";
                       safe +:+ extension rt])
  = hits ->
  (List.length hits <= 1)%nat ->
  ResourceID_init get repr indent4 make_safe_filename glob Quiz lower_unicode course_
    (cat +:+ "/" +:+ String "?" nm)
  = inr (mkResourceID course_ (cat +:+ "/" +:+ String "?" nm)
           (py_lower lower_unicode cat) "?" (Some nm) rt
           (Some (PDict kvs)) (Some t) (Some i)
           (Some (safe +:+ extension rt))
           (Some (match hits with [] => true | _ => false end))
           (Some (match hits with
                  | [] =>
                      path_join_all [root_directory course_;
                                     canonical_category rt;
                                     safe +:+ extension rt]
                  | p :: _ => p
                  end))).
Proof.
  intros Hcat Hreg Hget Ht Hi Hsafe Hglob Hlen.
  unfold ResourceID_init.
  rewrite (parse_command repr Quiz lower_unicode cat "?" nm rt Hcat Hreg eq_refl eq_refl).
  cbn [bind].
  set (self0 := mkResourceID course_ (cat +:+ "/" +:+ String "?" nm)
                  (py_lower lower_unicode cat) "?" (Some nm) rt
                  None None None None None None).
  assert (Hobj : Forall is_json_object [PDict kvs])
    by (repeat constructor; eexists; reflexivity).
  rewrite (get_canvas_data_search get repr indent4 self0 eq_refl).
  rewrite (find_one get repr indent4 self0 [PDict kvs] Hget Hobj
             (PDict kvs) eq_refl).
  rewrite (parse_canvas_data_dict (set_canvas_data (PDict kvs) self0)
             kvs t i eq_refl Ht Hi).
  cbn [bind].
  rewrite (get_disk_path_found make_safe_filename glob
             (set_canvas_id i
                (set_canvas_title t (set_canvas_data (PDict kvs) self0)))
             t safe hits eq_refl Hsafe Hglob Hlen).
  reflexivity.
Qed.

Lemma search_identifier_constructed_witness :
  ResourceID_init
    (fun _ _ _ _ => PList [PDict [("id", PInt 7); ("name", PStr "Homework 1")]])
    (fun _ => "") (fun s => s) (fun _ => inr "Homework_1") (fun _ => [])
    Quiz_example (fun s => s) course_example
    ("assignment" +:+ "/" +:+ String "?" "Homework")
  = inr (mkResourceID course_example
           ("assignment" +:+ "/" +:+ String "?" "Homework")
           (py_lower (fun s => s) "assignment") "?" (Some "Homework") Assignment
           (Some (PDict [("id", PInt 7); ("name", PStr "Homework 1")]))
           (Some (PStr "Homework 1")) (Some (PInt 7))
           (Some ("Homework_1" +:+ extension Assignment))
           (Some true)
           (Some (path_join_all [root_directory course_example;
                                 canonical_category Assignment;
                                 "Homework_1" +:+ extension Assignment]))).
Proof.
  apply (search_identifier_constructed
           (fun _ _ _ _ =>
              PList [PDict [("id", PInt 7); ("name", PStr "Homework 1")]])
           (fun _ => "") (fun s => s) (fun _ => inr "Homework_1")
           (fun _ => []) Quiz_example (fun s => s) course_example
           "assignment" "Homework" "Homework_1" Assignment
           [("id", PInt 7); ("name", PStr "Homework 1")]
           (PStr "Homework 1") (PInt 7) []);
    try reflexivity.
  simpl. lia.
Defined.

(** A create identifier whose name the remote does not know is
    constructed as a new object: the sentinel [True] as remote data, the
    given name as canonical title, no remote id, and a file name made
    from the given name. *)
Theorem create_identifier_constructed
    (get : string -> list (string * PyVal) -> string -> bool -> PyVal)
    (repr : PyVal -> string) (indent4 : string -> string)
    (make_safe_filename : PyVal -> result string)
    (glob : string -> list string) (Quiz : ResourceType)
    (lower_unicode : string -> string)
    (course_ : Course) (cat nm safe : string) (rt : ResourceType) :
  str_contains "/" cat = false ->
  dict_get (RESOURCE_CATEGORIES Quiz) (py_lower lower_unicode cat) = Some rt ->
  get (canvas_name rt) [("search_term", PStr nm)] (course_name course_) true
  = PList [] ->
  make_safe_filename (PStr nm) = inr safe ->
  glob (path_join_all [root_directory course_; canonical_category rt; "**";
                       safe +:+ extension rt])
  = [] ->
  ResourceID_init get repr indent4 make_safe_filename glob Quiz lower_unicode course_
    (cat +:+ "/" +:+ String "+" nm)
  = inr (mkResourceID course_ (cat +:+ "/" +:+ String "+" nm)
           (py_lower lower_unicode cat) "+" (Some nm) rt
           (Some (PBool true)) (Some (PStr nm)) (Some PNone)
           (Some (safe +:+ extension rt)) (Some true)
           (Some (path_join_all [root_directory course_;
                                 canonical_category rt;
                                 safe +:+ extension rt]))).
Proof.
  intros Hcat Hreg Hget Hsafe Hglob.
  unfold ResourceID_init.
  rewrite (parse_command repr Quiz lower_unicode cat "+" nm rt Hcat Hreg eq_refl eq_refl).
  cbn [bind].
  set (self0 := mkResourceID course_ (cat +:+ "/" +:+ String "+" nm)
                  (py_lower lower_unicode cat) "+" (Some nm) rt
                  None None None None None None).
  rewrite (create_without_match_is_new get repr indent4 self0 [] Hget
             (List.Forall_nil is_json_object) eq_refl eq_refl).
  cbn [bind].
  rewrite (get_disk_path_found make_safe_filename glob
             (set_canvas_id PNone
                (set_canvas_title (name_val (name self0))
                   (set_canvas_data (PBool true) self0)))
             (PStr nm) safe [] eq_refl Hsafe Hglob (Nat.le_0_l 1)).
  reflexivity.
Qed.

Lemma create_identifier_constructed_witness :
  ResourceID_init (fun _ _ _ _ => PList []) (fun _ => "") (fun s => s)
    (fun _ => inr "Week_1") (fun _ => []) Quiz_example (fun s => s) course_example
    ("page" +:+ "/" +:+ String "+" "Week 1")
  = inr (mkResourceID course_example
           ("page" +:+ "/" +:+ String "+" "Week 1")
           (py_lower (fun s => s) "page") "+" (Some "Week 1") Page
           (Some (PBool true)) (Some (PStr "Week 1")) (Some PNone)
           (Some ("Week_1" +:+ extension Page)) (Some true)
           (Some (path_join_all [root_directory course_example;
                                 canonical_category Page;
                                 "Week_1" +:+ extension Page]))).
Proof.
  apply (create_identifier_constructed (fun _ _ _ _ => PList [])
           (fun _ => "") (fun s => s) (fun _ => inr "Week_1") (fun _ => [])
           Quiz_example (fun s => s) course_example "page" "Week 1" "Week_1" Page);
    reflexivity.
Defined.

(** ** Pushing *)

(** Pushing an identifier that is new on the remote posts the payload to
    the variant's collection; the answer becomes the remote data and the
    title and id are read again from it, so the identifier is no longer
    new. *)
Theorem push_new_posts_and_resolves
    (post put : string -> PyVal -> string -> PyVal) (repr : PyVal -> string)
    (self : Course) (resource_id : ResourceID) (json_data : PyVal)
    (kvs : list (string * PyVal)) (t i : PyVal) :
  canvas_data resource_id = Some (PBool true) ->
  post (canvas_name (resource_type resource_id)) json_data (course_name self)
  = PDict kvs ->
  dict_mem "errors" kvs = false ->
  dict_get kvs (canvas_title_field (resource_type resource_id)) = Some t ->
  dict_get kvs (canvas_id_field (resource_type resource_id)) = Some i ->
  Course_push post put repr self resource_id json_data
  = (set_canvas_id i
       (set_canvas_title t (set_canvas_data (PDict kvs) resource_id)),
     inr tt).
Proof.
  intros Hdata Hpost Herr Ht Hi. unfold Course_push. rewrite Hdata.
  cbn [attr ret bind]. unfold put_on_canvas. rewrite Hpost.
  cbn [py_contains bind ret]. rewrite Herr.
  exact (parse_canvas_data_dict (set_canvas_data (PDict kvs) resource_id)
           kvs t i eq_refl Ht Hi).
Qed.

Lemma push_new_posts_and_resolves_witness :
  Course_push
    (fun _ _ _ => PDict [("url", PStr "week-1"); ("title", PStr "Week 1")])
    (fun _ _ _ => PNone) (fun _ => "") course_example new_page_example
    (PDict [("wiki_page[title]", PStr "Week 1")])
  = (set_canvas_id (PStr "week-1")
       (set_canvas_title (PStr "Week 1")
          (set_canvas_data
             (PDict [("url", PStr "week-1"); ("title", PStr "Week 1")])
             new_page_example)),
     inr tt).
Proof.
  apply (push_new_posts_and_resolves
           (fun _ _ _ =>
              PDict [("url", PStr "week-1"); ("title", PStr "Week 1")])
           (fun _ _ _ => PNone) (fun _ => "") course_example
           new_page_example (PDict [("wiki_page[title]", PStr "Week 1")])
           [("url", PStr "week-1"); ("title", PStr "Week 1")]
           (PStr "Week 1") (PStr "week-1"));
    reflexivity.
Defined.

(** Pushing an identifier that holds remote data puts the payload to the
    object named by the id field of that data; the answer replaces the
    data, and title and id follow the answer, so a renamed object is
    known under its new title afterwards. *)
Theorem push_existing_puts_and_resolves
    (post put : string -> PyVal -> string -> PyVal) (repr : PyVal -> string)
    (self : Course) (resource_id : ResourceID) (json_data : PyVal)
    (old kvs : list (string * PyVal)) (old_id t i : PyVal) :
  canvas_data resource_id = Some (PDict old) ->
  dict_get old (canvas_id_field (resource_type resource_id)) = Some old_id ->
  old_id <> PNone ->
  put (canvas_name (resource_type resource_id) +:+ "/" +:+ py_str repr old_id)
    json_data (course_name self)
  = PDict kvs ->
  dict_mem "errors" kvs = false ->
  dict_get kvs (canvas_title_field (resource_type resource_id)) = Some t ->
  dict_get kvs (canvas_id_field (resource_type resource_id)) = Some i ->
  Course_push post put repr self resource_id json_data
  = (set_canvas_id i
       (set_canvas_title t (set_canvas_data (PDict kvs) resource_id)),
     inr tt).
Proof.
  intros Hdata Hold Hne Hput Herr Ht Hi. unfold Course_push. rewrite Hdata.
  cbn [attr ret bind]. unfold identify_id, identify_field.
  cbn [py_getitem]. unfold dict_getitem. rewrite Hold. cbn [ret bind].
  unfold put_on_canvas.
  assert (Hanswer :
            match old_id with
            | PNone =>
                post (canvas_name (resource_type resource_id)) json_data
                  (course_name self)
            | _ =>
                put (canvas_name (resource_type resource_id) +:+ "/"
                     +:+ py_str repr old_id) json_data (course_name self)
            end = PDict kvs)
    by (destruct old_id; congruence).
  rewrite Hanswer. cbn [py_contains bind ret]. rewrite Herr.
  exact (parse_canvas_data_dict (set_canvas_data (PDict kvs) resource_id)
           kvs t i eq_refl Ht Hi).
Qed.

Lemma push_existing_puts_and_resolves_witness :
  Course_push (fun _ _ _ => PNone)
    (fun endpoint _ _ =>
       if String.eqb endpoint "pages/syllabus"
       then PDict [("url", PStr "course-syllabus");
                   ("title", PStr "Course Syllabus")]
       else PNone)
    (fun _ => "") course_example page_id_example
    (PDict [("wiki_page[title]", PStr "Course Syllabus")])
  = (set_canvas_id (PStr "course-syllabus")
       (set_canvas_title (PStr "Course Syllabus")
          (set_canvas_data
             (PDict [("url", PStr "course-syllabus");
                     ("title", PStr "Course Syllabus")])
             page_id_example)),
     inr tt).
Proof.
  apply (push_existing_puts_and_resolves (fun _ _ _ => PNone)
           (fun endpoint _ _ =>
              if String.eqb endpoint "pages/syllabus"
              then PDict [("url", PStr "course-syllabus");
                          ("title", PStr "Course Syllabus")]
              else PNone)
           (fun _ => "") course_example page_id_example
           (PDict [("wiki_page[title]", PStr "Course Syllabus")])
           [("url", PStr "syllabus"); ("title", PStr "Syllabus")]
           [("url", PStr "course-syllabus"); ("title", PStr "Course Syllabus")]
           (PStr "syllabus") (PStr "Course Syllabus")
           (PStr "course-syllabus"));
    try reflexivity.
  discriminate.
Defined.

(** When the remote answers a push with errors, the push raises the
    general error quoting the answer and the identifier keeps the remote
    data, title and id it had. *)
Theorem push_errors_leave_identifier
    (post put : string -> PyVal -> string -> PyVal) (repr : PyVal -> string)
    (self : Course) (resource_id : ResourceID) (json_data answer : PyVal) :
  canvas_data resource_id = Some (PBool true) ->
  post (canvas_name (resource_type resource_id)) json_data (course_name self)
  = answer ->
  py_contains "errors" answer = inr true ->
  Course_push post put repr self resource_id json_data
  = (resource_id,
     inl (WaltzException ("Errors in Canvas data: " +:+ repr answer))).
Proof.
  intros Hdata Hpost Herr. unfold Course_push. rewrite Hdata.
  cbn [attr ret bind]. unfold put_on_canvas. rewrite Hpost, Herr.
  reflexivity.
Qed.

Lemma push_errors_leave_identifier_witness :
  Course_push (fun _ _ _ => PDict [("errors", PStr "title taken")])
    (fun _ _ _ => PNone) (fun _ => "{...}") course_example new_page_example
    PNone
  = (new_page_example,
     inl (WaltzException ("Errors in Canvas data: " +:+ "{...}"))).
Proof.
  apply (push_errors_leave_identifier
           (fun _ _ _ => PDict [("errors", PStr "title taken")])
           (fun _ _ _ => PNone) (fun _ => "{...}") course_example
           new_page_example PNone (PDict [("errors", PStr "title taken")]));
    reflexivity.
Defined.

(** ** What a backup touches *)

Lemma str_length_append (a b : string) :
  String.length (a +:+ b) = (String.length a + String.length b)%nat.
Proof. induction a as [|c a IH]; simpl; [reflexivity|now rewrite IH]. Qed.

Lemma str_append_assoc (a b c : string) : (a +:+ b) +:+ c = a +:+ (b +:+ c).
Proof.
  induction a as [|x a IH]; [reflexivity|].
  change (String x ((a +:+ b) +:+ c) = String x (a +:+ (b +:+ c))).
  now f_equal.
Qed.

Lemma substring_whole (s : string) : String.substring 0 (String.length s) s = s.
Proof. induction s as [|c s IH]; simpl; [reflexivity|now rewrite IH]. Qed.

Lemma substring_after (a s : string) (m : nat) :
  String.substring (String.length a) m (a +:+ s) = String.substring 0 m s.
Proof. induction a as [|c a IH]; simpl; [reflexivity|exact IH]. Qed.

Lemma endswith_append (a suffix : string) : endswith (a +:+ suffix) suffix = true.
Proof.
  unfold endswith. rewrite str_length_append.
  replace (String.length a + String.length suffix - String.length suffix)%nat
    with (String.length a) by lia.
  rewrite substring_after, substring_whole, String.eqb_refl.
  rewrite andb_true_r. apply Nat.leb_le. lia.
Qed.

Lemma path_join_keeps_last (a b : string) : exists x, path_join a b = x +:+ b.
Proof.
  unfold path_join. destruct (String.prefix "/" b).
  - now exists "".
  - destruct (String.eqb a "" || ends_with_slash a).
    + now exists a.
    + exists (a +:+ "/"). symmetry. apply str_append_assoc.
Qed.

Lemma backup_path_ends_with_gz (dir stamp ext : string) :
  endswith (path_join dir (stamp +:+ ext +:+ ".gz")) ".gz" = true.
Proof.
  destruct (path_join_keeps_last dir (stamp +:+ ext +:+ ".gz")) as [x ->].
  rewrite <- (str_append_assoc stamp ext ".gz").
  rewrite <- (str_append_assoc x (stamp +:+ ext) ".gz").
  apply endswith_append.
Qed.

(** [backup_resource] changes no file whose name does not end in [.gz]:
    the resource file itself, and every other resource, is as it was, and
    at most one file is written. *)
Theorem backup_resource_spares_resources
    (gzip_compress : string -> string) (self : Course)
    (resource_id : ResourceID) (new_version : PyVal) (stamp : string)
    (disk : Disk) (q : string) :
  endswith q ".gz" = false ->
  let after :=
    backup_resource gzip_compress self resource_id new_version stamp disk in
  files (fst after) !! q = files disk !! q /\
  (List.length (write_log (fst after))
   <= S (List.length (write_log disk)))%nat.
Proof.
  intros Hq after. subst after. unfold backup_resource.
  destruct (attr "filename" (filename resource_id)) as [e|filename_];
    [cbn [fst]; split; [reflexivity|lia]|].
  destruct (attr "path" (path resource_id)) as [e|path_];
    [cbn [fst]; unfold ensure_dir; split; [reflexivity|lia]|].
  unfold ensure_dir.
  destruct (negb (path_exists path_ disk));
    [cbn [fst]; split; [reflexivity|lia]|].
  destruct (read_text path_ disk) as [e|contents];
    [cbn [fst]; split; [reflexivity|lia]|].
  destruct (str_eq_val contents new_version);
    [cbn [fst]; split; [reflexivity|lia]|].
  cbn [fst]. split.
  - apply files_write_file_ne. intros ->.
    rewrite backup_path_ends_with_gz in Hq. discriminate.
  - rewrite write_log_write_file. lia.
Qed.

Lemma backup_resource_spares_resources_witness :
  let after :=
    backup_resource gzip_example course_example page_id_example
      (PStr "new text") "2019-09-01-10-00-00" disk_example in
  files (fst after) !! "cs1/pages/Syllabus.md"
  = files disk_example !! "cs1/pages/Syllabus.md" /\
  (List.length (write_log (fst after))
   <= S (List.length (write_log disk_example)))%nat.
Proof.
  apply (backup_resource_spares_resources gzip_example course_example
           page_id_example (PStr "new text") "2019-09-01-10-00-00"
           disk_example "cs1/pages/Syllabus.md").
  reflexivity.
Defined.

(** ** Writing a resource to disk *)

Section ToDisk.
Variable gzip_compress : string -> string.
Variable yaml_dump : PyVal -> string.
Variable self : Course.
Variable resource_id : ResourceID.
Variable resource_to_disk : ResourceID -> result PyVal.
Variables filename_ path_ stamp : string.
Variable disk : Disk.

Hypothesis filename_set : filename resource_id = Some filename_.
Hypothesis path_set : path resource_id = Some path_.

Lemma to_disk_result (resource_data : PyVal) :
  resource_to_disk resource_id = inr resource_data ->
  Course_to_disk gzip_compress yaml_dump self resource_id resource_to_disk
    stamp disk
  = let backed :=
      fst (backup_resource gzip_compress self resource_id resource_data
             stamp disk) in
    if endswith path_ ".yaml"
    then (write_file path_ (yaml_dump resource_data) backed, inr tt)
    else
      match resource_data with
      | PStr text => (write_file path_ text backed, inr tt)
      | _ =>
          (write_file path_ "" backed,
           inl (TypeError "write() argument must be str"))
      end.
Proof.
  intros Hdata. unfold Course_to_disk. rewrite Hdata.
  rewrite (backup_resource_cases gzip_compress self resource_id
             filename_ path_ filename_set path_set).
  destruct (files disk !! path_) as [contents|];
    [destruct (str_eq_val (universal_newlines contents) resource_data)|];
    rewrite path_set; reflexivity.
Qed.
End ToDisk.

(** [Course.to_disk] of a text resource over a file with another text
    loses nothing: afterwards the file holds the new text and a backup
    under the backup folder holds the compressed old text. *)
Theorem to_disk_text_keeps_previous_version
    (gzip_compress : string -> string) (yaml_dump : PyVal -> string)
    (self : Course) (resource_id : ResourceID)
    (resource_to_disk : ResourceID -> result PyVal)
    (filename_ path_ text old stamp : string) (disk : Disk) :
  filename resource_id = Some filename_ ->
  path resource_id = Some path_ ->
  endswith path_ ".yaml" = false ->
  endswith path_ ".gz" = false ->
  resource_to_disk resource_id = inr (PStr text) ->
  files disk !! path_ = Some old ->
  universal_newlines old <> text ->
  let after :=
    Course_to_disk gzip_compress yaml_dump self resource_id resource_to_disk
      stamp disk in
  snd after = inr tt /\
  files (fst after) !! path_ = Some text /\
  files (fst after)
  !! path_join
       (path_join (backups self)
          (identify_filename (resource_type resource_id) filename_))
       (stamp +:+ extension (resource_type resource_id) +:+ ".gz")
  = Some (gzip_compress (universal_newlines old)).
Proof.
  intros Hf Hp Hyaml Hgz Hdata Hold Hdiff after. subst after.
  rewrite (to_disk_result gzip_compress yaml_dump self resource_id
             resource_to_disk filename_ path_ stamp disk Hf Hp (PStr text)
             Hdata).
  cbv zeta. rewrite Hyaml.
  rewrite (backup_resource_cases gzip_compress self resource_id
             filename_ path_ Hf Hp).
  rewrite Hold.
  assert (Hneq : str_eq_val (universal_newlines old) (PStr text) = false).
  { unfold str_eq_val, is_str. apply String.eqb_neq. exact Hdiff. }
  rewrite Hneq. cbn [fst snd].
  split; [reflexivity|]. split.
  - apply files_write_file_eq.
  - rewrite files_write_file_ne.
    + apply files_write_file_eq.
    + intros E. rewrite <- E in Hgz.
      rewrite backup_path_ends_with_gz in Hgz. discriminate.
Qed.

Lemma to_disk_text_keeps_previous_version_witness :
  let after :=
    Course_to_disk gzip_example json_example course_example page_id_example
      (fun _ => inr (PStr "new text")) "2019-09-01-10-00-00" disk_example in
  snd after = inr tt /\
  files (fst after) !! "cs1/pages/Syllabus.md" = Some "new text" /\
  files (fst after)
  !! path_join
       (path_join (backups course_example)
          (identify_filename (resource_type page_id_example) "Syllabus.md"))
       ("2019-09-01-10-00-00" +:+ extension (resource_type page_id_example)
        +:+ ".gz")
  = Some (gzip_example (universal_newlines "old text")).
Proof.
  apply (to_disk_text_keeps_previous_version gzip_example json_example
           course_example page_id_example (fun _ => inr (PStr "new text"))
           "Syllabus.md" "cs1/pages/Syllabus.md" "new text" "old text"
           "2019-09-01-10-00-00" disk_example);
    try reflexivity.
  vm_compute. discriminate.
Defined.

(** [Course.to_disk] of a resource kept as YAML over an existing file
    always writes a backup of the old text, also when the YAML printed
    for the new version is the text already there: the comparison is
    between the file text and the mapping itself. *)
Theorem to_disk_yaml_always_backs_up
    (gzip_compress : string -> string) (yaml_dump : PyVal -> string)
    (self : Course) (resource_id : ResourceID)
    (resource_to_disk : ResourceID -> result PyVal)
    (filename_ path_ old stamp : string) (kvs : list (string * PyVal))
    (disk : Disk) :
  filename resource_id = Some filename_ ->
  path resource_id = Some path_ ->
  endswith path_ ".yaml" = true ->
  resource_to_disk resource_id = inr (PDict kvs) ->
  files disk !! path_ = Some old ->
  let after :=
    Course_to_disk gzip_compress yaml_dump self resource_id resource_to_disk
      stamp disk in
  snd after = inr tt /\
  write_log (fst after)
  = (write_log disk
     ++ [(path_join
            (path_join (backups self)
               (identify_filename (resource_type resource_id) filename_))
            (stamp +:+ extension (resource_type resource_id) +:+ ".gz"),
          gzip_compress (universal_newlines old));
         (path_, yaml_dump (PDict kvs))])%list.
Proof.
  intros Hf Hp Hyaml Hdata Hold after. subst after.
  rewrite (to_disk_result gzip_compress yaml_dump self resource_id
             resource_to_disk filename_ path_ stamp disk Hf Hp (PDict kvs)
             Hdata).
  cbv zeta. rewrite Hyaml.
  rewrite (backup_resource_cases gzip_compress self resource_id
             filename_ path_ Hf Hp).
  rewrite Hold. cbn [str_eq_val is_str fst snd].
  split; [reflexivity|].
  unfold write_file. cbn [write_log]. now rewrite <- app_assoc.
Qed.

Lemma to_disk_yaml_always_backs_up_witness :
  let after :=
    Course_to_disk gzip_example json_example course_example
      assignment_id_example (fun _ => inr (PDict [("name", PStr "Homework 1")]))
      "2019-09-01-10-00-00" assignment_disk_example in
  snd after = inr tt /\
  write_log (fst after)
  = (write_log assignment_disk_example
     ++ [(path_join
            (path_join (backups course_example)
               (identify_filename (resource_type assignment_id_example)
                  "Homework_1.yaml"))
            ("2019-09-01-10-00-00"
             +:+ extension (resource_type assignment_id_example) +:+ ".gz"),
          gzip_example (universal_newlines "null"));
         ("cs1/assignments/Homework_1.yaml",
          json_example (PDict [("name", PStr "Homework 1")]))])%list.
Proof.
  apply (to_disk_yaml_always_backs_up gzip_example json_example
           course_example assignment_id_example
           (fun _ => inr (PDict [("name", PStr "Homework 1")]))
           "Homework_1.yaml" "cs1/assignments/Homework_1.yaml" "null"
           "2019-09-01-10-00-00" [("name", PStr "Homework 1")]
           assignment_disk_example);
    reflexivity.
Defined.

(** A page written by [Course.to_disk] and read back by
    [Course.from_disk] is the page that [Page.from_disk] builds from the
    written Markdown with its line endings normalised: the body is the
    HTML of that text and the title is the identifier's canonical
    title. *)
Theorem page_written_then_read
    (gzip_compress : string -> string) (yaml_dump : PyVal -> string)
    (yaml_load : string -> result PyVal)
    (h2m m2h : PyVal -> result PyVal)
    (self : Course) (resource_id : ResourceID) (page : PyVal)
    (filename_ path_ text stamp : string) (disk : Disk) :
  filename resource_id = Some filename_ ->
  path resource_id = Some path_ ->
  endswith path_ ".yaml" = false ->
  Page_to_disk h2m page = inr (PStr text) ->
  let after :=
    Course_to_disk gzip_compress yaml_dump self resource_id
      (fun _ => Page_to_disk h2m page) stamp disk in
  snd after = inr tt /\
  Course_from_disk yaml_load self resource_id (Page_from_disk m2h) (fst after)
  = Page_from_disk m2h self (PStr (universal_newlines text)) resource_id.
Proof.
  intros Hf Hp Hyaml Hdata after. subst after.
  rewrite (to_disk_result gzip_compress yaml_dump self resource_id
             (fun _ => Page_to_disk h2m page) filename_ path_ stamp disk
             Hf Hp (PStr text) Hdata).
  cbv zeta. rewrite Hyaml. cbn [fst snd]. split; [reflexivity|].
  unfold Course_from_disk. rewrite Hp. cbn [attr ret bind].
  unfold path_exists, read_text. rewrite files_write_file_eq.
  cbn [negb]. now rewrite Hyaml.
Qed.

Lemma page_written_then_read_witness :
  let after :=
    Course_to_disk gzip_example json_example course_example page_id_example
      (fun _ => Page_to_disk wrap_text_example page_example)
      "2019-09-01-10-00-00" disk_example in
  snd after = inr tt /\
  Course_from_disk (fun _ => inr PNone) course_example page_id_example
    (Page_from_disk unwrap_text_example) (fst after)
  = Page_from_disk unwrap_text_example course_example
      (PStr (universal_newlines "md:<p>Welcome</p>")) page_id_example.
Proof.
  apply (page_written_then_read gzip_example json_example
           (fun _ => inr PNone) wrap_text_example unwrap_text_example
           course_example page_id_example page_example
           "Syllabus.md" "cs1/pages/Syllabus.md" "md:<p>Welcome</p>"
           "2019-09-01-10-00-00" disk_example);
    reflexivity.
Defined.

(** ** Field selection *)

(** On a mapping, [_get_first_field] returns the value of the first of
    the given fields that is present with a true value, skipping fields
    that are absent or hold an empty, zero, false or [None] value; the
    converter is applied only when the name of that field contains
    [html]; with no such field the default is returned unconverted. *)
Theorem get_first_field_first_truthy
    (d : list (string * PyVal)) (fields : list string) (default : PyVal)
    (convert : option (PyVal -> result PyVal)) :
  _get_first_field (PDict d) fields default convert
  = match
      List.find
        (fun f => match dict_get d f with Some v => truthy v | None => false end)
        fields
    with
    | Some f =>
        match convert with
        | Some conv =>
            if str_contains "html" f
            then conv (dict_get_default d f default)
            else inr (dict_get_default d f default)
        | None => inr (dict_get_default d f default)
        end
    | None => inr default
    end.
Proof.
  induction fields as [|f fields IH]; [reflexivity|].
  cbn [_get_first_field List.find py_contains bind ret].
  unfold dict_mem, dict_get_default. cbn [py_getitem]. unfold dict_getitem.
  destruct (dict_get d f) as [v|] eqn:E; [|exact IH].
  cbn [bind ret]. destruct (truthy v); [|exact IH].
  destruct convert as [conv|]; [|now rewrite E].
  destruct (str_contains "html" f); now rewrite E.
Qed.

(** ** Looking a resource up by name *)

Section LookupFacts.
Variable get_data : string -> list (string * PyVal) -> string -> bool -> PyVal.
Variable repr : PyVal -> string.
Variable self : Course.
Variable resource_name : string.

Let assignments : PyVal :=
  get_data "assignments" [("search_term", PStr resource_name)]
    (course_name self) true.
Let pages : PyVal :=
  get_data "pages" [("search_term", PStr resource_name)]
    (course_name self) true.

(** Assignments are searched before pages: a single assignment match is
    the answer whatever the pages hold, several assignment matches are an
    error whatever the pages hold, and the pages decide only when no
    assignment matches; nothing found in either is an error. *)
Theorem identify_resource_prefers_assignments :
  (forall r,
     assignments = PList [r] ->
     identify_resource_by_name get_data self resource_name
     = inr ("assignments", r)) /\
  (forall r1 r2 rest,
     assignments = PList (r1 :: r2 :: rest) ->
     identify_resource_by_name get_data self resource_name
     = inl (WaltzException ("Too many results for: " +:+ resource_name))) /\
  (assignments = PList [] ->
   (forall r,
      pages = PList [r] ->
      identify_resource_by_name get_data self resource_name
      = inr ("pages", r)) /\
   (forall r1 r2 rest,
      pages = PList (r1 :: r2 :: rest) ->
      identify_resource_by_name get_data self resource_name
      = inl (WaltzException ("Too many results for: " +:+ resource_name))) /\
   (pages = PList [] ->
    identify_resource_by_name get_data self resource_name
    = inl (WaltzException ("No results for: " +:+ resource_name)))).
Proof.
  unfold identify_resource_by_name. cbn [identify_in].
  fold assignments. fold pages.
  split; [|split].
  - intros r ->. reflexivity.
  - intros r1 r2 rest ->. reflexivity.
  - intros ->. cbn [py_len bind ret List.length Nat.ltb Nat.leb truthy].
    split; [|split].
    + intros r ->. reflexivity.
    + intros r1 r2 rest ->. reflexivity.
    + intros ->. reflexivity.
Qed.

(** The link made for a name found once among the assignments is the
    name in brackets followed by the [html_url] of that assignment. *)
Theorem make_link_of_single_assignment
    (kvs : list (string * PyVal)) (url : string) :
  assignments = PList [PDict kvs] ->
  dict_get kvs "html_url" = Some (PStr url) ->
  make_link get_data repr self resource_name
  = inr ("[" +:+ resource_name +:+ "](" +:+ url +:+ ")").
Proof.
  intros Ha Hurl. unfold make_link, identify_resource_by_name.
  cbn [identify_in]. fold assignments. rewrite Ha.
  cbn [py_len bind ret List.length Nat.ltb Nat.leb truthy py_first snd
       py_getitem].
  unfold dict_getitem. now rewrite Hurl.
Qed.
End LookupFacts.

Lemma identify_resource_prefers_assignments_witness :
  identify_resource_by_name lookup_example course_example "Homework 1"
  = inr ("assignments",
         PDict [("name", PStr "Homework 1");
                ("html_url", PStr "https://canvas.example/a/7")]).
Proof.
  apply (proj1 (identify_resource_prefers_assignments lookup_example
                  course_example "Homework 1")).
  reflexivity.
Defined.

Lemma make_link_of_single_assignment_witness :
  make_link lookup_example (fun _ => "") course_example "Homework 1"
  = inr ("[" +:+ "Homework 1" +:+ "](" +:+ "https://canvas.example/a/7"
         +:+ ")").
Proof.
  apply (make_link_of_single_assignment lookup_example (fun _ => "")
           course_example "Homework 1"
           [("name", PStr "Homework 1");
            ("html_url", PStr "https://canvas.example/a/7")]
           "https://canvas.example/a/7");
    reflexivity.
Defined.

(** ** Pages *)

(** A page read from disk and turned into a payload sends the HTML of
    the file as body and the identifier's canonical title as title: the
    title of a page cannot be changed from its file. *)
Theorem page_from_disk_then_to_json
    (m2h : PyVal -> result PyVal) (course_ : Course)
    (resource_id : ResourceID) (resource_data body title : PyVal) :
  m2h resource_data = inr body ->
  canvas_title resource_id = Some title ->
  (page <- Page_from_disk m2h course_ resource_data resource_id ;;
   Page_to_json page)
  = inr (PDict [("wiki_page[body]", body); ("wiki_page[title]", title)]).
Proof.
  intros Hbody Htitle. unfold Page_from_disk. rewrite Hbody, Htitle.
  reflexivity.
Qed.

Lemma page_from_disk_then_to_json_witness :
  (page <- Page_from_disk unwrap_text_example course_example
             (PStr "md:<p>Welcome</p>") page_id_example ;;
   Page_to_json page)
  = inr (PDict [("wiki_page[body]", PStr "<p>Welcome</p>");
                ("wiki_page[title]", PStr "Syllabus")]).
Proof.
  apply (page_from_disk_then_to_json unwrap_text_example course_example
           page_id_example (PStr "md:<p>Welcome</p>")
           (PStr "<p>Welcome</p>") (PStr "Syllabus"));
    reflexivity.
Defined.

Lemma dict_set_fresh {V} (d : list (string * V)) (k : string) (v : V) :
  dict_get d k = None -> dict_set d k v = (d ++ [(k, v)])%list.
Proof.
  induction d as [|[k0 v0] d IH]; simpl; [reflexivity|].
  destruct (String.eqb k k0); [discriminate|].
  intros H. now rewrite (IH H).
Qed.

Lemma dict_update_app {V} (a d1 d2 : list (string * V)) :
  dict_update a (d1 ++ d2)%list = dict_update (dict_update a d1) d2.
Proof. unfold dict_update. apply fold_left_app. Qed.

Lemma plain_names_app (a b : list (string * PyVal)) :
  forallb plain_name (dict_keys a) = true ->
  forallb plain_name (dict_keys b) = true ->
  forallb plain_name (dict_keys (a ++ b)%list) = true.
Proof.
  intros Ha Hb. unfold dict_keys in *.
  now rewrite map_app, forallb_app, Ha, Hb.
Qed.

(** [Page.from_json] on a search result without a body fetches the page
    by its url and takes the body from that answer; on a result that has
    a body it builds the page without any remote request.  The page is
    built when no key of the result is one of the names that Python keeps
    for itself ([self], [__class__], [__weakref__], [__dict__]). *)
Theorem page_from_json_fetches_missing_body
    (get : string -> list (string * PyVal) -> string -> bool -> PyVal)
    (repr : PyVal -> string) (course_ : Course)
    (d : list (string * PyVal)) :
  dict_mem "course" d = false ->
  (dict_mem "body" d = true ->
   Page_from_json get repr course_ (PDict d)
   = call_with_course "Page" d course_) /\
  (forall url answer body,
     forallb plain_name (dict_keys d) = true ->
     dict_get d "body" = None ->
     dict_get d "url" = Some url ->
     get (canvas_name Page +:+ "/" +:+ py_str repr url) []
       (course_name course_) false
     = PDict answer ->
     dict_get answer "body" = Some body ->
     exists page,
       Page_from_json get repr course_ (PDict d) = inr page /\
       getattr page "body" = inr body).
Proof.
  intros Hcourse. split.
  - intros Hbody. unfold Page_from_json.
    cbn [py_contains as_kwargs bind ret].
    now rewrite Hbody.
  - intros url answer body Hplain Hnobody Hurl Hget Hbody.
    unfold Page_from_json. cbn [py_contains py_getitem bind ret].
    unfold dict_mem at 1. rewrite Hnobody. cbn [negb].
    unfold dict_getitem. rewrite Hurl. cbn [bind ret]. rewrite Hget.
    cbn [py_getitem]. unfold dict_getitem. rewrite Hbody.
    cbn [py_setitem as_kwargs bind ret].
    unfold call_with_course.
    assert (Hc : dict_mem "course" (dict_set d "body" body) = false).
    { unfold dict_mem in *. rewrite dict_get_set_ne by discriminate.
      exact Hcourse. }
    rewrite Hc, (dict_set_fresh d "body" body Hnobody).
    rewrite Resource_init_eq
      by (repeat apply plain_names_app; [exact Hplain|reflexivity..]).
    eexists. split; [reflexivity|].
    unfold getattr. rewrite dict_get_set_ne by discriminate.
    rewrite !dict_update_app. unfold dict_update at 1 2. cbn [fold_left fst snd].
    rewrite dict_get_set_ne by discriminate.
    now rewrite dict_get_set_eq.
Qed.

Lemma page_from_json_fetches_missing_body_witness :
  exists page,
    Page_from_json
      (fun _ _ _ _ => PDict [("url", PStr "syllabus"); ("body", PStr "<p>Hi</p>")])
      (fun _ => "") course_example
      (PDict [("url", PStr "syllabus"); ("title", PStr "Syllabus")])
    = inr page /\
    getattr page "body" = inr (PStr "<p>Hi</p>").
Proof.
  apply (proj2 (page_from_json_fetches_missing_body
                  (fun _ _ _ _ =>
                     PDict [("url", PStr "syllabus");
                            ("body", PStr "<p>Hi</p>")])
                  (fun _ => "") course_example
                  [("url", PStr "syllabus"); ("title", PStr "Syllabus")]
                  eq_refl)
           (PStr "syllabus")
           [("url", PStr "syllabus"); ("body", PStr "<p>Hi</p>")]
           (PStr "<p>Hi</p>"));
    reflexivity.
Defined.

(** ** What the disk form of an assignment keeps *)

(** The instance read back from the disk form of an assignment has
    exactly the attributes the disk form names, in a fixed order, plus
    [course] and the empty bag: any other attribute of the original, its
    [id] for one, is gone; [allowed_extensions] comes back under the name
    [extensions]; and the description is the original taken through
    [h2m] and back through [m2h]. *)
Theorem Assignment_round_trip_attributes
    (h2m m2h to_friendly_date from_friendly_date : PyVal -> result PyVal)
    (course_ : Course) (self on_disk back : PyVal) :
  Assignment_to_disk h2m to_friendly_date self = inr on_disk ->
  Assignment_from_disk m2h from_friendly_date course_ on_disk = inr back ->
  (exists attrs,
     back = PObject "Assignment" attrs /\
     dict_keys attrs
     = (["name"; "description"; "published"; "points_possible";
         "grading_type"; "due_at"; "unlock_at"; "lock_at";
         "anonymize_students"; "anonymous_grading"]
        ++ (if hasattr self "allowed_extensions" then ["extensions"] else [])
        ++ ["submission_types"; "html_url"; "course";
            "unmatched_parameters"])%list) /\
  (hasattr self "allowed_extensions" = true ->
   getattr back "extensions" = getattr self "allowed_extensions") /\
  getattr back "description"
  = (v <- getattr self "description" ;; v <- h2m v ;; m2h v) /\
  getattr back "course" = inr (PCourse course_).
Proof.
  intros Hto Hfrom.
  unfold Assignment_to_disk in Hto.
  do 5 step Hto.
  unfold hasattr in *.
  destruct (getattr self "allowed_extensions") eqn:Eext;
    cbn [bind ret] in Hto;
    repeat step Hto;
    unfold ret in Hto; injection Hto; intros Hdisk; rewrite <- Hdisk in Hfrom;
    unfold Assignment_from_disk, friendly_field, merge_section in Hfrom;
    cbn in Hfrom;
    repeat (step Hfrom; cbn in Hfrom);
    unfold ret in Hfrom; injection Hfrom; intros Hback; rewrite <- Hback;
    (split; [eexists; split; reflexivity|]);
    cbn;
    repeat match goal with
           | H : _ = inr _ |- _ => rewrite H; cbn [bind]
           end;
    repeat split; try reflexivity; discriminate.
Qed.

Lemma Assignment_round_trip_attributes_witness :
  (exists attrs,
     assignment_example_back = PObject "Assignment" attrs /\
     dict_keys attrs
     = (["name"; "description"; "published"; "points_possible";
         "grading_type"; "due_at"; "unlock_at"; "lock_at";
         "anonymize_students"; "anonymous_grading"]
        ++ (if hasattr assignment_example "allowed_extensions"
            then ["extensions"] else [])
        ++ ["submission_types"; "html_url"; "course";
            "unmatched_parameters"])%list) /\
  (hasattr assignment_example "allowed_extensions" = true ->
   getattr assignment_example_back "extensions"
   = getattr assignment_example "allowed_extensions") /\
  getattr assignment_example_back "description"
  = (v <- getattr assignment_example "description" ;;
     v <- wrap_example v ;; unwrap_example v) /\
  getattr assignment_example_back "course" = inr (PCourse course_example).
Proof.
  apply (Assignment_round_trip_attributes wrap_example unwrap_example
           wrap_example unwrap_example course_example assignment_example
           assignment_example_on_disk assignment_example_back);
    vm_compute; reflexivity.
Defined.

(** ** Building variants from remote data *)

Lemma dict_get_None_notin {V} (d : list (string * V)) (k : string) :
  dict_get d k = None -> ~ In k (dict_keys d).
Proof.
  induction d as [|[k0 v0] d IH]; intros Hget Hin; [exact Hin|].
  cbn [dict_get] in Hget.
  destruct (String.eqb k k0) eqn:Ek; [discriminate|].
  destruct Hin as [Heq|Hin].
  - cbn [fst] in Heq. subst k0. now rewrite String.eqb_refl in Ek.
  - exact (IH Hget Hin).
Qed.

Lemma NoDup_keys_with_course (d : list (string * PyVal)) (c : Course) :
  List.NoDup (dict_keys d) ->
  dict_mem "course" d = false ->
  List.NoDup (dict_keys (d ++ [("course", PCourse c)])%list).
Proof.
  intros Hnd Hc. unfold dict_keys. rewrite map_app. cbn [map fst].
  apply List.NoDup_app.
  - exact Hnd.
  - repeat constructor. intros [].
  - intros k Hin [<-|[]].
    unfold dict_mem in Hc.
    destruct (dict_get d "course") eqn:E; [discriminate|].
    exact (dict_get_None_notin d "course" E Hin).
Qed.

Lemma dict_get_app_left {V} (d1 d2 : list (string * V)) (k : string) (v : V) :
  dict_get d1 k = Some v -> dict_get (d1 ++ d2)%list k = Some v.
Proof.
  induction d1 as [|[k0 v0] d1 IH]; simpl; [discriminate|].
  destruct (String.eqb k k0); [trivial|exact IH].
Qed.

(** [Assignment.from_json] keeps every field of the remote object as an
    attribute of the same name and adds the course, when no field has
    one of the names that Python keeps for itself ([self], [__class__],
    [__weakref__], [__dict__]); the remote object must not itself have a
    field called [course], which the call refuses with [TypeError]. *)
Theorem Assignment_from_json_keeps_fields
    (course_ : Course) (d : list (string * PyVal)) :
  List.NoDup (dict_keys d) ->
  (dict_mem "course" d = true ->
   Assignment_from_json course_ (PDict d)
   = inl (TypeError
            "waltz.resources.Assignment() got multiple values for keyword argument 'course'")) /\
  (dict_mem "course" d = false ->
   forallb plain_name (dict_keys d) = true ->
   exists self,
     Assignment_from_json course_ (PDict d) = inr self /\
     getattr self "course" = inr (PCourse course_) /\
     forall k v,
       k <> "unmatched_parameters" ->
       dict_get d k = Some v ->
       getattr self k = inr v).
Proof.
  intros Hnd. unfold Assignment_from_json, call_with_course.
  cbn [as_kwargs bind ret]. split; intros Hc; rewrite Hc; [reflexivity|].
  intros Hplain.
  rewrite Resource_init_eq
    by (apply plain_names_app; [exact Hplain|reflexivity]).
  eexists. split; [reflexivity|].
  pose proof (NoDup_keys_with_course d course_ Hnd Hc) as Hnd'.
  split.
  - unfold getattr. rewrite dict_get_set_ne by discriminate.
    rewrite dict_update_app. unfold dict_update at 1. cbn [fold_left fst snd].
    now rewrite dict_get_set_eq.
  - intros k v Hk Hget. unfold getattr.
    rewrite dict_get_set_ne by congruence.
    rewrite (dict_get_update_in [] _ k v Hnd'
               (dict_get_app_left d _ k v Hget)).
    reflexivity.
Qed.

Lemma Assignment_from_json_keeps_fields_witness :
  exists self,
    Assignment_from_json course_example
      (PDict [("id", PInt 7); ("name", PStr "Homework 1")])
    = inr self /\
    getattr self "course" = inr (PCourse course_example) /\
    forall k v,
      k <> "unmatched_parameters" ->
      dict_get [("id", PInt 7); ("name", PStr "Homework 1")] k = Some v ->
      getattr self k = inr v.
Proof.
  apply (proj2 (Assignment_from_json_keeps_fields course_example
                  [("id", PInt 7); ("name", PStr "Homework 1")]
                  ltac:(repeat constructor; simpl; intuition discriminate))
           eq_refl eq_refl).
Defined.

(** ** The outcome cache over several calls *)

(** Whatever the first call of the filter for a course did, load well or
    raise half-way, every later call for that course answers from the
    cache the first call left, leaves that cache as it is, and does not
    raise: the course is scanned at most once, a failed scan is never
    tried again, and changes on disk are not seen. *)
Theorem outcome_course_scanned_at_most_once
    (glob glob' : string -> list string)
    (yaml_load yaml_load' : string -> result PyVal) (disk disk' : Disk)
    (course_ : Course) (outcome_name outcome_name' : string)
    (CACHE : list (string * list (string * PyVal))) :
  let first :=
    load_outcome_by_name glob yaml_load disk course_ outcome_name CACHE in
  exists entries,
    dict_get (fst first) (course_name course_) = Some entries /\
    load_outcome_by_name glob' yaml_load' disk' course_ outcome_name'
      (fst first)
    = (fst first,
       inr (dict_get_default entries outcome_name' (PStr outcome_name'))).
Proof.
  intros first. subst first.
  assert (Hmem :
            dict_mem (course_name course_)
              (fst (load_outcome_by_name glob yaml_load disk course_
                      outcome_name CACHE)) = true).
  { unfold load_outcome_by_name.
    destruct (ensure_loaded glob yaml_load disk course_ CACHE) as [C r] eqn:E.
    pose proof (ensure_loaded_has_course glob yaml_load disk course_
                  CACHE C r E) as H.
    destruct r; [exact H|].
    destruct (dict_getitem C (course_name course_)); exact H. }
  set (C1 := fst (load_outcome_by_name glob yaml_load disk course_
                    outcome_name CACHE)) in *.
  unfold dict_mem in Hmem.
  destruct (dict_get C1 (course_name course_)) as [entries|] eqn:E;
    [|discriminate].
  exists entries. split; [reflexivity|].
  unfold load_outcome_by_name, ensure_loaded, dict_mem, dict_getitem.
  rewrite E. cbn [negb]. cbv beta iota. now rewrite E.
Qed.

(** After a load that ended well, every outcome named in a bank file
    that was found is in the cache of the course, as an [Outcome]
    object. *)
Theorem load_all_caches_every_outcome
    (glob : string -> list string) (yaml_load : string -> result PyVal)
    (disk : Disk) (course_ : Course)
    (CACHE CACHE' : list (string * list (string * PyVal)))
    (bank text name_ : string) (items : list (string * PyVal))
    (outcome : PyVal) :
  load_all glob yaml_load disk course_ CACHE = (CACHE', inr tt) ->
  In bank
    (glob (path_join_all [root_directory course_; canonical_category Outcome;
                          "**"; "*" +:+ extension Outcome])) ->
  read_text bank disk = inr text ->
  yaml_load text = inr (PDict items) ->
  In (name_, outcome) items ->
  exists entries attrs,
    dict_get CACHE' (course_name course_) = Some entries /\
    dict_get entries name_ = Some (PObject "Outcome" attrs).
Proof.
  intros Hload Hbank Hread Hyaml Hitem.
  set (cn := course_name course_) in *.
  set (cached := fun (C : list (string * list (string * PyVal))) n =>
                   exists entries attrs,
                     dict_get C cn = Some entries /\
                     dict_get entries n = Some (PObject "Outcome" attrs)).
  (* one bank: what was cached stays cached, its own outcomes get cached *)
  assert (Hstore : forall b its C C',
             store_outcomes course_ b its C = (C', inr tt) ->
             (forall n, cached C n -> cached C' n) /\
             (forall n o, In (n, o) its -> cached C' n)).
  { intros b its. induction its as [|[n0 o0] its IH]; intros C C' Hrun.
    - simpl in Hrun. injection Hrun as <-. split; [trivial|intros ? ? []].
    - cbn [store_outcomes] in Hrun.
      unfold Outcome_from_disk, call_with_course in Hrun.
      cbn [as_kwargs bind ret] in Hrun.
      change (dict_mem "course" [("body", o0)]) with false in Hrun.
      cbv iota in Hrun. rewrite Resource_init_eq in Hrun by reflexivity.
      cbn [bind ret setattr] in Hrun.
      fold cn in Hrun. unfold dict_getitem in Hrun.
      destruct (dict_get C cn) as [entries|] eqn:E; cbn [bind ret] in Hrun;
        [|discriminate].
      match type of Hrun with
      | context [PObject "Outcome" ?a] => set (attrs0 := a) in Hrun
      end.
      destruct (IH _ _ Hrun) as [Hkeep Hadd].
      assert (Hnew : forall n, cached C n \/ n = n0 ->
                cached (dict_set C cn
                          (dict_set entries n0 (PObject "Outcome" attrs0)))
                  n).
      { intros n Hn. unfold cached. rewrite dict_get_set_eq.
        destruct (String.eqb n0 n) eqn:En.
        - apply String.eqb_eq in En. subst n.
          eexists. eexists. split; [reflexivity|]. apply dict_get_set_eq.
        - apply String.eqb_neq in En.
          destruct Hn as [(entries0 & attrs & He & Ha)|Hn]; [|congruence].
          rewrite E in He. injection He as <-.
          eexists. exists attrs. split; [reflexivity|].
          now rewrite dict_get_set_ne. }
      split.
      + intros n Hn. apply Hkeep, Hnew. now left.
      + intros n o [Heq|Hin].
        * injection Heq as <- _. apply Hkeep, Hnew. now right.
        * eapply Hadd, Hin. }
  assert (Hbanks : forall banks C,
             load_banks yaml_load disk course_ banks C = (CACHE', inr tt) ->
             (forall n, cached C n -> cached CACHE' n) /\
             (In bank banks -> cached CACHE' name_)).
  { induction banks as [|b banks IH]; intros C Hrun.
    - simpl in Hrun. injection Hrun as <-. split; [trivial|intros []].
    - simpl in Hrun.
      destruct (read_text b disk) as [e|txt] eqn:Er; cbn [bind] in Hrun;
        [discriminate|].
      destruct (yaml_load txt) as [e|parsed] eqn:Ey; cbn [bind] in Hrun;
        [discriminate|].
      destruct (py_items parsed) as [e|its] eqn:Ei; [discriminate|].
      destruct (store_outcomes course_ b its C) as [C1 [e|[]]] eqn:Es;
        [discriminate|].
      destruct (Hstore b its C C1 Es) as [Hkeep1 Hadd1].
      destruct (IH C1 Hrun) as [Hkeep Hin'].
      split.
      + intros n Hn. apply Hkeep, Hkeep1, Hn.
      + intros [->|Hin]; [|exact (Hin' Hin)].
        apply Hkeep. rewrite Hread in Er. injection Er as <-.
        rewrite Hyaml in Ey. injection Ey as <-.
        simpl in Ei. injection Ei as <-.
        exact (Hadd1 name_ outcome Hitem). }
  unfold load_all in Hload.
  exact (proj2 (Hbanks _ _ Hload) Hbank).
Qed.

Lemma load_all_caches_every_outcome_witness :
  exists entries attrs,
    dict_get outcome_cache_example (course_name course_example)
    = Some entries /\
    dict_get entries "Loops" = Some (PObject "Outcome" attrs).
Proof.
  apply (load_all_caches_every_outcome outcome_glob_example
           outcome_yaml_example outcome_disk_example course_example []
           outcome_cache_example "cs1/outcomes/bank.yaml"
           "Loops: Write loops" "Loops" [("Loops", PStr "Write loops")]
           (PStr "Write loops")).
  - vm_compute. reflexivity.
  - vm_compute. left. reflexivity.
  - vm_compute. reflexivity.
  - vm_compute. reflexivity.
  - left. reflexivity.
Defined.

(** ** Writing the same text twice *)

Lemma to_disk_text_then_backup_is_noop_witness :
  let written :=
    Course_to_disk gzip_example json_example course_example page_id_example
      (fun _ => inr (PStr "new text")) "2019-09-01-10-00-00" disk_example in
  snd written = inr tt /\
  backup_resource gzip_example course_example page_id_example
    (PStr "new text") "2019-09-01-10-00-01" (fst written)
  = (fst written, inr false).
Proof.
  apply (to_disk_text_then_backup_is_noop gzip_example json_example
           course_example page_id_example (fun _ => inr (PStr "new text"))
           "Syllabus.md" "cs1/pages/Syllabus.md" "new text"
           "2019-09-01-10-00-00" "2019-09-01-10-00-01" disk_example);
    reflexivity.
Defined.
